(** * RdsDataApiClient: the PyMySQL-compatible adaptor over the RDS Data API

    A shallow embedding of [data_api_adaptor/rds_data_api_client.py] and the
    properties of its translation layer: the argument encoder
    ([__map_argument_pair_to_data_api_arg]), the placeholder translator
    ([convert_query_and_query_args_for_data_api] and its two helpers), the
    result decoder ([data_api_response_to_pymysql_response]) and the cursor
    methods built on them ([execute], [executemany], [fetchone], [fetchall]).

    Modelling conventions.
    - A text is a [string]. [str.upper] and the whitespace class of [re]
      are modelled on ASCII: [upper] acts on the letters a-z and [is_space]
      knows the ASCII whitespace. Python's are Unicode-aware (U+017F and
      U+0131 upper-case to S and I, U+00A0 is whitespace), so the two agree
      with Python on ASCII texts only. A property that would not hold of
      Python's Unicode-aware versions is stated for an ASCII query text
      ([ascii_text]).
    - A Python [dict] whose iteration order matters is an association list in
      insertion order.
    - A Python exception is an explicit outcome; a method of the client is a
      function from the session to an outcome and the session it leaves
      behind, so that what was already written to [self] when an exception is
      raised stays visible.
    - The remote service ([self.rds_client]) is a pair of functions from the
      request to either a response or a client error. *)

From Stdlib Require Import String Ascii List ZArith Lia Bool Arith.
Import ListNotations.

Local Open Scope string_scope.
Local Open Scope list_scope.

(** ** Python strings *)

Module PyStr.

(** [s.startswith(p)] *)
Fixpoint startswith (p s : string) : bool :=
  match p with
  | EmptyString => true
  | String a p' =>
      match s with
      | EmptyString => false
      | String b s' => Ascii.eqb a b && startswith p' s'
      end
  end.

(** [sub in s] *)
Fixpoint contains (sub s : string) : bool :=
  match s with
  | EmptyString => startswith sub EmptyString
  | String _ s' => startswith sub s || contains sub s'
  end.

(** The optional [count] argument of [str.replace]: [None] is "no limit". *)
Definition may_replace (count : option nat) : bool :=
  match count with
  | None => true
  | Some O => false
  | Some (S _) => true
  end.

Definition used_one (count : option nat) : option nat :=
  match count with
  | None => None
  | Some n => Some (Nat.pred n)
  end.

(** Left-to-right scan of [str.replace]: [skip] characters of a matched
    occurrence are still to be dropped. *)
Fixpoint replace_from (old new : string) (count : option nat) (skip : nat)
    (s : string) : string :=
  match s with
  | EmptyString => EmptyString
  | String c s' =>
      match skip with
      | S k => replace_from old new count k s'
      | O =>
          if may_replace count && startswith old s
          then new ++ replace_from old new (used_one count)
                                   (Nat.pred (String.length old)) s'
          else String c (replace_from old new count 0 s')
      end
  end.

(** [s.replace(old, new)] and [s.replace(old, new, n)] for a non-empty
    [old]. Every pattern the client passes is non-empty (['%s'] or
    ['%(' + name + ')s']); Python's insertion behaviour for an empty pattern
    is outside the model, which leaves the string as it is there. *)
Definition str_replace (old new : string) (count : option nat) (s : string)
    : string :=
  match old with
  | EmptyString => s
  | String _ _ => replace_from old new count 0 s
  end.

(** [s.count(sub)] for a non-empty [sub]: non-overlapping occurrences, left
    to right. *)
Fixpoint count_from (sub : string) (skip : nat) (s : string) : nat :=
  match s with
  | EmptyString => 0
  | String _ s' =>
      match skip with
      | S k => count_from sub k s'
      | O =>
          if startswith sub s
          then S (count_from sub (Nat.pred (String.length sub)) s')
          else count_from sub 0 s'
      end
  end.

Definition str_count (sub s : string) : nat := count_from sub 0 s.

(** [c.upper()] for an ASCII character [c]: the letters a-z go to A-Z and
    every other character stays. Outside ASCII the model leaves the character
    as it is, where Python may upper-case it, also to an ASCII letter. *)
Definition upper_char (c : ascii) : ascii :=
  let n := nat_of_ascii c in
  if ((97 <=? n) && (n <=? 122))%nat then ascii_of_nat (n - 32) else c.

(** [s.upper()] for an ASCII text [s]. *)
Fixpoint upper (s : string) : string :=
  match s with
  | EmptyString => EmptyString
  | String c s' => String (upper_char c) (upper s')
  end.

(** The decimal digit of [n mod 10]. *)
Definition digit (n : nat) : ascii := ascii_of_nat (48 + n mod 10).

Fixpoint digits_from (fuel n : nat) (acc : string) : string :=
  match fuel with
  | O => acc
  | S fuel' =>
      let acc' := String (digit n) acc in
      if (n <? 10)%nat then acc' else digits_from fuel' (n / 10) acc'
  end.

(** [f'{n}'] for a non-negative integer [n]; [S n] rounds are more than the
    number of digits of [n]. *)
Definition str_of_nat (n : nat) : string := digits_from (S n) n EmptyString.

(** Concatenation of a list of strings, [''.join(l)]. *)
Fixpoint concat_all (l : list string) : string :=
  match l with
  | [] => EmptyString
  | s :: l' => s ++ concat_all l'
  end.

End PyStr.
Import PyStr.

(** ** The regular expression [%(\S+)s]

    In [re.search(r'%(\S+)s', query)] the parentheses are a capture group, so
    the pattern is: a percent sign, one or more non-whitespace characters, the
    letter s. *)

Module Regex.

(** [\s] for an ASCII character: tab, line feed, vertical tab, form feed,
    carriage return, the separators 28..31 and the space. Outside ASCII the
    model counts every character as non-whitespace, where Python's [\s] also
    holds of U+0085, U+00A0 and other Unicode whitespace. *)
Definition is_space (c : ascii) : bool :=
  let n := nat_of_ascii c in
  (((9 <=? n) && (n <=? 13)) || ((28 <=? n) && (n <=? 31)) || (n =? 32))%nat.

(** After at least one [\S] has been read: is there an [s] before the run of
    non-whitespace characters ends? Backtracking makes [\S+] stop before any
    [s] of the run. *)
Fixpoint s_in_run (s : string) : bool :=
  match s with
  | EmptyString => false
  | String c s' =>
      if is_space c then false
      else Ascii.eqb c "s" || s_in_run s'
  end.

(** A match of the pattern that starts at the first character. *)
Definition match_here (s : string) : bool :=
  match s with
  | String p (String c s') =>
      Ascii.eqb p "%" && negb (is_space c) && s_in_run s'
  | _ => false
  end.

(** [re.search(r'%(\S+)s', s)] finds a match. *)
Fixpoint search_named_marker (s : string) : bool :=
  match s with
  | EmptyString => false
  | String _ s' => match_here s || search_named_marker s'
  end.

End Regex.
Import Regex.

(** ** Python values and dictionaries *)

(** The values that reach the client as arguments or come back in a
    response. A float is its IEEE-754 binary64 bit pattern; a
    [datetime.datetime] is carried with its [str()] rendering; [bytes] stands
    for the argument types the encoder has no entry for. *)
Inductive pyval : Type :=
  | VNone
  | VBool (b : bool)
  | VInt (z : Z)
  | VFloat (bits : Z)
  | VStr (s : string)
  | VDatetime (rendered : string)
  | VBytes (b : string).

(** [str(type(v))] *)
Definition type_name (v : pyval) : string :=
  match v with
  | VNone => "<class 'NoneType'>"
  | VBool _ => "<class 'bool'>"
  | VInt _ => "<class 'int'>"
  | VFloat _ => "<class 'float'>"
  | VStr _ => "<class 'str'>"
  | VDatetime _ => "<class 'datetime.datetime'>"
  | VBytes _ => "<class 'bytes'>"
  end.

(** [bool(v)] *)
Definition truthy (v : pyval) : bool :=
  match v with
  | VNone => false
  | VBool b => b
  | VInt z => negb (Z.eqb z 0)
  | VFloat bits => negb (Z.eqb (Z.land bits (2 ^ 63 - 1)) 0)
  | VStr s => negb (String.eqb s EmptyString)
  | VDatetime _ => true
  | VBytes b => negb (String.eqb b EmptyString)
  end.

(** [v != None] *)
Definition ne_none (v : pyval) : bool :=
  match v with
  | VNone => false
  | _ => true
  end.

(** A [dict] with string keys, in insertion order. *)
Definition dict (V : Type) : Type := list (string * V).

(** [d.get(k)] *)
Fixpoint dict_get {V : Type} (d : dict V) (k : string) : option V :=
  match d with
  | [] => None
  | (k', v) :: d' => if String.eqb k' k then Some v else dict_get d' k
  end.

(** [d[k] = v]: an existing key keeps its place and takes the new value, a
    new key goes to the end. *)
Fixpoint dict_set {V : Type} (d : dict V) (k : string) (v : V) : dict V :=
  match d with
  | [] => [(k, v)]
  | (k', v') :: d' =>
      if String.eqb k' k then (k', v) :: d' else (k', v') :: dict_set d' k v
  end.

(** [dict(pairs)] *)
Definition dict_of_pairs {V : Type} (pairs : list (string * V)) : dict V :=
  fold_left (fun d kv => dict_set d (fst kv) (snd kv)) pairs [].

(** ** Exceptions and outcomes *)

Inductive exn : Type :=
  | KeyError
  | TypeError
  | AttributeError
  | IndexError
  | ParamValidationError
  | BadRequestException
  | ForbiddenException.

Inductive outcome (A : Type) : Type :=
  | Returns (a : A)
  | Raises (e : exn).
Arguments Returns {A} a.
Arguments Raises {A} e.

(** A computation over a mutable object of type [S]: the state it leaves is
    reported also when it raises. *)
Definition M (S A : Type) : Type := S -> outcome A * S.

Definition ret {S A : Type} (a : A) : M S A := fun s => (Returns a, s).

Definition raise {S A : Type} (e : exn) : M S A := fun s => (Raises e, s).

Definition bind {S A B : Type} (m : M S A) (k : A -> M S B) : M S B :=
  fun s =>
    match m s with
    | (Returns a, s') => k a s'
    | (Raises e, s') => (Raises e, s')
    end.

Definition get {S : Type} : M S S := fun s => (Returns s, s).

Definition put {S : Type} (s : S) : M S unit := fun _ => (Returns tt, s).

(** A pure computation that may raise, run inside [M]. *)
Definition lift {S A : Type} (o : outcome A) : M S A := fun s => (o, s).

(** [d[k]]: [KeyError] when the key is absent. *)
Definition item {S A : Type} (o : option A) : M S A :=
  match o with
  | Some a => ret a
  | None => raise KeyError
  end.

Declare Scope py_scope.
Delimit Scope py_scope with py.
Notation "x <- m ;; k" := (bind m (fun x => k))
  (at level 61, m at next level, right associativity) : py_scope.
Notation "m ;;; k" := (bind m (fun _ => k))
  (at level 61, right associativity) : py_scope.

Local Open Scope py_scope.

(** A pure computation that may raise, sequenced with another. *)
Definition and_then {A B : Type} (o : outcome A) (k : A -> outcome B)
    : outcome B :=
  match o with
  | Returns a => k a
  | Raises e => Raises e
  end.

(** ** The data of the Data API *)

(** One parameter of a statement, as [__map_argument_pair_to_data_api_arg]
    builds it: [{'name': ..., 'value': {tag: v}, 'typeHint': ...}], the last
    key present for timestamps only. *)
Record EncodedParameter : Type := {
  name : string;
  value : dict pyval;
  typeHint : option string
}.

(** A field of a record or a generated field: [{tag: v}]. *)
Definition field : Type := dict pyval.

Definition row : Type := list field.

(** An entry of [columnMetadata]; [label] is the key the client reads. *)
Record column : Type := { label : string }.

(** An entry of [updateResults]; [None] is an absent key. *)
Record update_result : Type := {
  result_generatedFields : option (list field)
}.

(** The response dictionary of [execute_statement] and
    [batch_execute_statement]; [None] is an absent key. [HTTPStatusCode] is
    [response['ResponseMetadata']['HTTPStatusCode']]. *)
Record response : Type := {
  columnMetadata : option (list column);
  HTTPStatusCode : option Z;
  records : option (list row);
  numberOfRecordsUpdated : option Z;
  generatedFields : option (list field);
  updateResults : option (list update_result)
}.

Definition set_records (r : response) (rs : list row) : response :=
  {| columnMetadata := columnMetadata r;
     HTTPStatusCode := HTTPStatusCode r;
     records := Some rs;
     numberOfRecordsUpdated := numberOfRecordsUpdated r;
     generatedFields := generatedFields r;
     updateResults := updateResults r |}.

(** The [query_args] of [execute]: [None], a list or tuple, or a dict. *)
Inductive query_args : Type :=
  | ArgsNone
  | ArgsSeq (l : list pyval)
  | ArgsDict (d : dict pyval).

(** [bool(query_args)] *)
Definition args_truthy (a : query_args) : bool :=
  match a with
  | ArgsNone => false
  | ArgsSeq l => negb (Nat.eqb (length l) 0)
  | ArgsDict d => negb (Nat.eqb (length d) 0)
  end.

(** What [enumerate(query_args)] walks through: the elements of a list or
    tuple, the keys of a dict; [None] is not iterable. *)
Definition iterate (a : query_args) : outcome (list pyval) :=
  match a with
  | ArgsNone => Raises TypeError
  | ArgsSeq l => Returns l
  | ArgsDict d => Returns (map (fun kv => VStr (fst kv)) d)
  end.

(** [query_args.items()]: only a dict has the method. *)
Definition items (a : query_args) : outcome (list (string * pyval)) :=
  match a with
  | ArgsDict d => Returns d
  | _ => Raises AttributeError
  end.

(** ** ArgumentEncoder *)

Definition mapping : dict string :=
  [ ("<class 'str'>", "stringValue");
    ("<class 'int'>", "longValue");
    ("<class 'float'>", "doubleValue");
    ("<class 'bool'>", "booleanValue");
    ("<class 'datetime.datetime'>", "stringValue");
    ("<class 'NoneType'>", "isNull") ].

(** ['datetime' in str(type(arg_value))] holds for [VDatetime] only
    ([datetime_test] below), so the branch is written as a match: it adds the
    type hint and replaces the value by [str(arg_value)]. *)
Definition __map_argument_pair_to_data_api_arg (arg_name : string)
    (arg_value : pyval) : outcome EncodedParameter :=
  match dict_get mapping (type_name arg_value) with
  | None => Raises KeyError
  | Some arg_datatype =>
      let '(hint, arg_value) :=
        match arg_value with
        | VDatetime rendered => (Some "TIMESTAMP", VStr rendered)
        | _ => (None, arg_value)
        end in
      let arg_value := if ne_none arg_value then arg_value else VBool true in
      Returns {| name := arg_name;
                 value := dict_set [] arg_datatype arg_value;
                 typeHint := hint |}
  end.

(** ** PlaceholderTranslator *)

(** The loop of [__convert_query_and_list_or_tuple_query_args], from
    position [index] on. *)
Fixpoint list_or_tuple_loop (index : nat) (args : list pyval)
    (new_query : string) (new_query_args : list EncodedParameter)
    : outcome (string * list EncodedParameter) :=
  match args with
  | [] => Returns (new_query, new_query_args)
  | query_arg :: rest =>
      let placeholder_name := ("parameter_" ++ str_of_nat index)%string in
      let new_query :=
        str_replace "%s" (":" ++ placeholder_name) (Some 1) new_query in
      and_then (__map_argument_pair_to_data_api_arg placeholder_name query_arg)
        (fun new_query_arg =>
           list_or_tuple_loop (S index) rest new_query
                              (new_query_args ++ [new_query_arg]))
  end.

Definition __convert_query_and_list_or_tuple_query_args (query : string)
    (args : query_args) : outcome (string * list EncodedParameter) :=
  and_then (iterate args) (fun l => list_or_tuple_loop 0 l query []).

(** The loop of [__convert_query_and_dict_query_args]. *)
Fixpoint dict_loop (args : list (string * pyval)) (new_query : string)
    (new_query_args : list EncodedParameter)
    : outcome (string * list EncodedParameter) :=
  match args with
  | [] => Returns (new_query, new_query_args)
  | (arg_name, arg_value) :: rest =>
      let new_query :=
        str_replace ("%(" ++ arg_name ++ ")s") (":" ++ arg_name) None
                    new_query in
      and_then (__map_argument_pair_to_data_api_arg arg_name arg_value)
        (fun new_query_arg =>
           dict_loop rest new_query (new_query_args ++ [new_query_arg]))
  end.

Definition __convert_query_and_dict_query_args (query : string)
    (args : query_args) : outcome (string * list EncodedParameter) :=
  and_then (items args) (fun l => dict_loop l query []).

(** The result is [None] when the function falls off its end: neither test
    held. *)
Definition convert_query_and_query_args_for_data_api (query : string)
    (args : query_args) : outcome (option (string * list EncodedParameter)) :=
  if contains "%s" query then
    and_then (__convert_query_and_list_or_tuple_query_args query args)
             (fun r => Returns (Some r))
  else if search_named_marker query then
    and_then (__convert_query_and_dict_query_args query args)
             (fun r => Returns (Some r))
  else Returns None.

(** [new_query, new_query_args = ...]: unpacking [None] is a [TypeError]. *)
Definition unpack {A : Type} (o : option A) : outcome A :=
  match o with
  | Some a => Returns a
  | None => Raises TypeError
  end.

(** ** ResultDecoder *)

(** What the decoder returns: [None], one formatted row, or a list of
    formatted rows. *)
Inductive fetched : Type :=
  | FNone
  | FRow (r : dict pyval)
  | FRows (rs : list (dict pyval)).

(** [[value if key != 'isNull' else None for type_value_pair in row
      for key, value in type_value_pair.items()]] *)
Definition row_values (r : row) : list pyval :=
  flat_map
    (fun type_value_pair : field =>
       map (fun kv =>
              if negb (String.eqb (fst kv) "isNull") then snd kv else VNone)
           type_value_pair)
    r.

(** [dict(zip(column_labels, row_values))] *)
Definition formatted_row (column_labels : list string) (r : row)
    : dict pyval :=
  dict_of_pairs (combine column_labels (row_values r)).

(** [not data_api_response.get('columnMetadata')] *)
Definition no_columns (r : response) : bool :=
  match columnMetadata r with
  | None => true
  | Some [] => true
  | Some (_ :: _) => false
  end.

(** The function works on the response object it is given and changes it in
    place ([pop(0)], [records = []]): a computation over that object. *)
Definition data_api_response_to_pymysql_response (fetch_mode : string)
    : M response fetched :=
  data_api_response <- get ;;
  non_select <-
    (if no_columns data_api_response
     then code <- item (HTTPStatusCode data_api_response) ;;
          ret (Z.eqb code 200)
     else ret false) ;;
  if (non_select : bool) then ret FNone
  else
    columns <- item (columnMetadata data_api_response) ;;
    let column_labels := map label columns in
    recs <- item (records data_api_response) ;;
    if Nat.eqb (length recs) 0 && String.eqb fetch_mode "one" then ret FNone
    else if Nat.eqb (length recs) 0 && String.eqb fetch_mode "all"
    then ret (FRows [])
    else if String.eqb fetch_mode "one" then
      match recs with
      | [] => raise IndexError
      | r :: rest =>
          put (set_records data_api_response rest) ;;;
          ret (FRow (formatted_row column_labels r))
      end
    else if String.eqb fetch_mode "all" then
      put (set_records data_api_response []) ;;;
      ret (FRows (map (formatted_row column_labels) recs))
    else ret FNone.

(** ** QueryExecutor and CompatibilityFacade *)

(** The fields of [self] that the cursor methods read and write. *)
Record session : Type := {
  data_api_response : option response;
  number_of_affected_rows : option Z;
  returning_ids : list pyval;
  lastrowid : option pyval
}.

(** The state [__init__] leaves. *)
Definition init : session :=
  {| data_api_response := None;
     number_of_affected_rows := None;
     returning_ids := [];
     lastrowid := None |}.

Definition set_data_api_response (r : response) : M session unit :=
  fun self =>
    (Returns tt,
     {| data_api_response := Some r;
        number_of_affected_rows := number_of_affected_rows self;
        returning_ids := returning_ids self;
        lastrowid := lastrowid self |}).

Definition set_number_of_affected_rows (n : Z) : M session unit :=
  fun self =>
    (Returns tt,
     {| data_api_response := data_api_response self;
        number_of_affected_rows := Some n;
        returning_ids := returning_ids self;
        lastrowid := lastrowid self |}).

Definition append_returning_id (v : pyval) : M session unit :=
  fun self =>
    (Returns tt,
     {| data_api_response := data_api_response self;
        number_of_affected_rows := number_of_affected_rows self;
        returning_ids := returning_ids self ++ [v];
        lastrowid := lastrowid self |}).

Definition set_lastrowid (v : pyval) : M session unit :=
  fun self =>
    (Returns tt,
     {| data_api_response := data_api_response self;
        number_of_affected_rows := number_of_affected_rows self;
        returning_ids := returning_ids self;
        lastrowid := Some v |}).

(** The second argument of [execute_query]: a parameter list for one
    statement or a list of parameter lists for a batch. *)
Inductive query_parameters : Type :=
  | ParameterList (l : list EncodedParameter)
  | ParameterSets (l : list (list EncodedParameter)).

Section Client.

(** [self.rds_client.execute_statement] and
    [self.rds_client.batch_execute_statement], as functions of the statement
    and its parameters; the ARNs and the database name are fixed for a
    client. *)
Variable execute_statement :
  string -> list EncodedParameter -> outcome response.
Variable batch_execute_statement :
  string -> list (list EncodedParameter) -> outcome response.

(** The exception handler prints the error and raises it again; boto3
    refuses parameters of the wrong shape before it sends the request. *)
Definition execute_query (query : string) (parameters : query_parameters)
    (execute_many : bool) : M session response :=
  if execute_many then
    match parameters with
    | ParameterSets sets => lift (batch_execute_statement query sets)
    | ParameterList _ => raise ParamValidationError
    end
  else
    match parameters with
    | ParameterList l => lift (execute_statement query l)
    | ParameterSets _ => raise ParamValidationError
    end.

(** The request of [execute] and of [query_adaptor]: with arguments, the
    translated query and its parameters; without, the query as it is. *)
Definition send (query : string) (args : query_args) : M session response :=
  if args_truthy args then
    converted <-
      lift (and_then (convert_query_and_query_args_for_data_api query args)
                     unpack) ;;
    let '(new_query, new_query_args) := converted in
    execute_query new_query (ParameterList new_query_args) false
  else execute_query query (ParameterList []) false.

(** "Set lastrowid if it's an INSERT query". *)
Definition record_lastrowid (query : string) (r : response)
    : M session unit :=
  if contains "INSERT" (upper query) then
    generated <- item (generatedFields r) ;;
    match generated with
    | [] => ret tt
    | first :: _ =>
        id <- item (dict_get first "longValue") ;;
        set_lastrowid id
    end
  else ret tt.

(** "Set affected_rows and return". *)
Definition record_affected_rows (r : response) : M session Z :=
  n <- item (numberOfRecordsUpdated r) ;;
  set_number_of_affected_rows n ;;;
  ret n.

Definition execute (query : string) (args : query_args) : M session Z :=
  r <- send query args ;;
  set_data_api_response r ;;;
  record_lastrowid query r ;;;
  record_affected_rows r.

(** The first loop of [executemany]: every argument set is translated
    against the original [query]; the last translation gives the query that
    is sent. *)
Fixpoint translate_each (query : string) (query_args_list : list query_args)
    (new_query : string) (new_query_args_list : list (list EncodedParameter))
    : outcome (string * list (list EncodedParameter)) :=
  match query_args_list with
  | [] => Returns (new_query, new_query_args_list)
  | args :: rest =>
      and_then
        (and_then (convert_query_and_query_args_for_data_api query args)
                  unpack)
        (fun converted =>
           let '(new_query, new_query_args) := converted in
           translate_each query rest new_query
                          (new_query_args_list ++ [new_query_args]))
  end.

(** The second loop of [executemany], over [updateResults]. *)
Fixpoint collect_returning_ids (results : list update_result)
    : M session unit :=
  match results with
  | [] => ret tt
  | result :: rest =>
      generated <- item (result_generatedFields result) ;;
      (match generated with
       | [] => ret tt
       | first :: _ =>
           match dict_get first "longValue" with
           | Some id => if truthy id then append_returning_id id else ret tt
           | None => ret tt
           end
       end) ;;;
      collect_returning_ids rest
  end.

Definition executemany (query : string) (query_args_list : list query_args)
    : M session Z :=
  translated <- lift (translate_each query query_args_list query []) ;;
  let '(new_query, new_query_args_list) := translated in
  response <- execute_query new_query (ParameterSets new_query_args_list)
                            true ;;
  set_data_api_response response ;;;
  results <- item (updateResults response) ;;
  collect_returning_ids results ;;;
  set_number_of_affected_rows (Z.of_nat (length results)) ;;;
  ret (Z.of_nat (length results)).

(** [query_adaptor] decodes a response of its own, which nobody else
    holds. *)
Definition query_adaptor (query : string) (args : query_args)
    (fetch_mode : string) : M session fetched :=
  r <- send query args ;;
  lift (fst (data_api_response_to_pymysql_response fetch_mode r)).

End Client.

(** [fetchone] and [fetchall] hand [self.data_api_response] itself to the
    decoder, so what the decoder removes is gone from the session; before any
    statement was run the attribute is [None], which has no [get]. *)
Definition fetch (fetch_mode : string) : M session fetched :=
  fun self =>
    match data_api_response self with
    | None => (Raises AttributeError, self)
    | Some r =>
        let '(result, r') :=
          data_api_response_to_pymysql_response fetch_mode r in
        (result,
         {| data_api_response := Some r';
            number_of_affected_rows := number_of_affected_rows self;
            returning_ids := returning_ids self;
            lastrowid := lastrowid self |})
    end.

Definition fetchone : M session fetched := fetch "one".

Definition fetchall : M session fetched := fetch "all".

Definition commit : M session unit := ret tt.

Definition affected_rows : M session (option Z) :=
  fun self => (Returns (number_of_affected_rows self), self).

Definition get_returned_ids : M session (list pyval) :=
  fun self => (Returns (returning_ids self), self).

(** * Vocabulary of the properties *)

(** Every character of the text is an ASCII character, of code below 128.
    On such a text [upper] is Python's [str.upper] and [is_space] is the
    whitespace class of Python's [re]. *)
Fixpoint ascii_text (s : string) : bool :=
  match s with
  | EmptyString => true
  | String c s' => (nat_of_ascii c <? 128)%nat && ascii_text s'
  end.

(** The scalars of the data model: text, integer, float, boolean, null and
    timestamp. *)
Definition scalar (v : pyval) : bool :=
  match v with
  | VBytes _ => false
  | _ => true
  end.

(** What the encoder stores under the tag for an argument. *)
Definition stored_value (v : pyval) : pyval :=
  match v with
  | VNone => VBool true
  | VDatetime rendered => VStr rendered
  | _ => v
  end.

(** The session after [self.data_api_response = r]. *)
Definition holding (self : session) (r : response) : session :=
  snd (set_data_api_response r self).

(** A response to a statement that produces no result set. *)
Definition update_response : response :=
  {| columnMetadata := Some [];
     HTTPStatusCode := Some 200%Z;
     records := None;
     numberOfRecordsUpdated := Some 1%Z;
     generatedFields := Some [];
     updateResults := None |}.

(** The response of the single-row example: columns [id] and [name], one
    record. *)
Definition ann_response : response :=
  {| columnMetadata := Some [{| label := "id" |}; {| label := "name" |}];
     HTTPStatusCode := Some 200%Z;
     records := Some [[[("longValue", VInt 1)]; [("stringValue", VStr "Ann")]]];
     numberOfRecordsUpdated := Some 0%Z;
     generatedFields := None;
     updateResults := None |}.

(** Case-insensitive containment on ASCII, character by character. *)
Fixpoint startswith_ci (p s : string) : bool :=
  match p with
  | EmptyString => true
  | String a p' =>
      match s with
      | EmptyString => false
      | String b s' =>
          Ascii.eqb (upper_char a) (upper_char b) && startswith_ci p' s'
      end
  end.

Fixpoint contains_ci (sub s : string) : bool :=
  match s with
  | EmptyString => startswith_ci sub EmptyString
  | String _ s' => startswith_ci sub s || contains_ci sub s'
  end.

(** The session with [ids] appended to [self.returning_ids]. *)
Definition with_more_ids (self : session) (ids : list pyval) : session :=
  {| data_api_response := data_api_response self;
     number_of_affected_rows := number_of_affected_rows self;
     returning_ids := returning_ids self ++ ids;
     lastrowid := lastrowid self |}.

(** The id a per-row result contributes: the [longValue] of its first
    generated field when the field has one and it is truthy. *)
Definition accepted_id (result : update_result) : list pyval :=
  match result_generatedFields result with
  | Some (first :: _) =>
      match dict_get first "longValue" with
      | Some id => if truthy id then [id] else []
      | None => []
      end
  | _ => []
  end.

(** A service that answers every statement with [r]. *)
Definition answering (r : response)
    : string -> list EncodedParameter -> outcome response :=
  fun _ _ => Returns r.

(** A batch service that answers every batch with [r]. *)
Definition batch_answering (r : response)
    : string -> list (list EncodedParameter) -> outcome response :=
  fun _ _ => Returns r.

(** The response to an INSERT that generated the key 42. *)
Definition insert_response : response :=
  {| columnMetadata := None;
     HTTPStatusCode := Some 200%Z;
     records := None;
     numberOfRecordsUpdated := Some 1%Z;
     generatedFields := Some [[("longValue", VInt 42)]];
     updateResults := None |}.

(** The batch response of the specification: generated ids 0 and 5 and a
    result without generated fields. *)
Definition batch_results : list update_result :=
  [ {| result_generatedFields := Some [[("longValue", VInt 0)]] |};
    {| result_generatedFields := Some [[("longValue", VInt 5)]] |};
    {| result_generatedFields := Some [] |} ].

Definition batch_response (results : list update_result) : response :=
  {| columnMetadata := None;
     HTTPStatusCode := Some 200%Z;
     records := None;
     numberOfRecordsUpdated := None;
     generatedFields := None;
     updateResults := Some results |}.

(** The value the decoder takes out of a tagged value [{tag: v}]: [v], or
    [None] under the tag [isNull]. *)
Definition unwrapped (f : field) : pyval :=
  match row_values [f] with
  | v :: _ => v
  | [] => VNone
  end.

(** The id a per-row result would contribute if the test were on the
    unwrapped value of the first generated field. *)
Definition truthy_unwrapped_id (result : update_result) : list pyval :=
  match result_generatedFields result with
  | Some (first :: _) =>
      if truthy (unwrapped first) then [unwrapped first] else []
  | _ => []
  end.

Local Open Scope string_scope.

(** The query [head%s p1 %s p2 ...]: the pieces after the first, each
    preceded by a positional marker. *)
Fixpoint with_markers (pieces : list string) : string :=
  match pieces with
  | [] => EmptyString
  | p :: ps => "%s" ++ p ++ with_markers ps
  end.

(** The name of the synthetic placeholder of a position. *)
Definition parameter_name (index : nat) : string :=
  "parameter_" ++ str_of_nat index.

(** The same pieces, each preceded by the synthetic placeholder of its
    position, counted from [index]. *)
Fixpoint with_parameters (index : nat) (pieces : list string) : string :=
  match pieces with
  | [] => EmptyString
  | p :: ps =>
      ":" ++ parameter_name index ++ p ++ with_parameters (S index) ps
  end.

(** [params] are the encodings of [args] under the placeholder names of
    their positions, counted from [index]. *)
Inductive encoded_from : nat -> list pyval -> list EncodedParameter -> Prop :=
  | encoded_nil (index : nat) : encoded_from index [] []
  | encoded_cons (index : nat) (v : pyval) (p : EncodedParameter)
      (args : list pyval) (params : list EncodedParameter) :
      __map_argument_pair_to_data_api_arg (parameter_name index) v = Returns p ->
      encoded_from (S index) args params ->
      encoded_from index (v :: args) (p :: params).

(** No character of the string is a percent sign. *)
Fixpoint no_percent (s : string) : bool :=
  match s with
  | EmptyString => true
  | String c s' => negb (Ascii.eqb c "%") && no_percent s'
  end.

(** The first rule [(marker, placeholder)] whose marker starts the
    string. *)
Fixpoint first_match (rules : list (string * string)) (s : string)
    : option (string * string) :=
  match rules with
  | [] => None
  | (old, new) :: rest =>
      if startswith old s then Some (old, new) else first_match rest s
  end.

(** One pass over the string, left to right, in which every occurrence of
    a marker of [rules] is replaced by its placeholder; [skip] characters of
    the occurrence just replaced are still to be dropped. *)
Fixpoint substitute_from (rules : list (string * string)) (skip : nat)
    (s : string) : string :=
  match s with
  | EmptyString => EmptyString
  | String c s' =>
      match skip with
      | S k => substitute_from rules k s'
      | O =>
          match first_match rules s with
          | Some (old, new) =>
              new ++ substitute_from rules (Nat.pred (String.length old)) s'
          | None => String c (substitute_from rules 0 s')
          end
      end
  end.

Definition substitute_all (rules : list (string * string)) (s : string)
    : string :=
  substitute_from rules 0 s.

(** The markers of the arguments [{a: ..., b: ...}] and their
    placeholders. *)
Definition named_ab : list (string * string) :=
  [("%(a)s", ":a"); ("%(b)s", ":b")].

(** The character [c] does not occur in the string. *)
Fixpoint avoids (c : ascii) (s : string) : bool :=
  match s with
  | EmptyString => true
  | String x s' => negb (Ascii.eqb x c) && avoids c s'
  end.

(** The marker of a named argument, [f'%({arg_name})s']. *)
Definition named_marker (arg_name : string) : string :=
  "%(" ++ arg_name ++ ")s".

(** The type tags of the Data API that the encoder uses. *)
Definition data_api_tags : list string :=
  ["stringValue"; "longValue"; "doubleValue"; "booleanValue"; "isNull"].

(** The query after the named loop went through the entries [d]. *)
Definition named_replaced (d : dict pyval) (query : string) : string :=
  fold_left
    (fun new_query kv =>
       str_replace (named_marker (fst kv)) (":" ++ fst kv) None new_query)
    d query.

Local Open Scope list_scope.

(** A response with columns and without the [records] key. *)
Definition truncated_response : response :=
  {| columnMetadata := Some [{| label := "id" |}];
     HTTPStatusCode := Some 200%Z;
     records := None;
     numberOfRecordsUpdated := Some 0%Z;
     generatedFields := Some [];
     updateResults := None |}.

(** [n] calls of [fetchone] in a row, with their results in order. *)
Fixpoint fetchone_times (n : nat) : M session (list fetched) :=
  match n with
  | O => ret []
  | S n' =>
      x <- fetchone ;;
      xs <- fetchone_times n' ;;
      ret (x :: xs)
  end.

(** [b] is [a] with some elements removed from its front. *)
Definition suffix_of {A : Type} (b a : list A) : Prop :=
  exists front, a = front ++ b.

(** * Properties *)

(** ** The string operations on examples *)

Example replace_first_only :
  str_replace "%s" ":p" (Some 1) "a = %s and b = %s" = "a = :p and b = %s".
Proof. reflexivity. Qed.

Example replace_every :
  str_replace "%(a)s" ":a" None "%(a)s, %(b)s, %(a)s%(a)s"
  = ":a, %(b)s, :a:a".
Proof. reflexivity. Qed.

Example count_markers : str_count "%s" "%%ss%s x %s" = 3.
Proof. reflexivity. Qed.

Example upper_ascii : upper "Insert into t_1 {z}" = "INSERT INTO T_1 {Z}".
Proof. reflexivity. Qed.

Example decimal_names :
  map str_of_nat [0; 7; 10; 42; 100; 2021]
  = ["0"; "7"; "10"; "42"; "100"; "2021"].
Proof. reflexivity. Qed.

(** The pattern needs a character between the percent sign and the [s], and
    no whitespace before the [s]. *)
Example named_pattern :
  map search_named_marker ["%s"; "%(a)s"; "%ds"; "100% sure"; "a%%s"; ""]
  = [false; true; true; false; true; false].
Proof. reflexivity. Qed.

Lemma append_assoc (a b c : string) :
  ((a ++ b) ++ c = a ++ b ++ c)%string.
Proof.
  induction a as [|x a IH]; cbn; [reflexivity|]. rewrite IH. reflexivity.
Qed.

(** The decimal rendering never runs out of rounds: any number of rounds
    above [n] gives the same digits. *)
Lemma digits_from_enough (fuel1 : nat) :
  forall (fuel2 n : nat) (acc : string),
    n < fuel1 -> n < fuel2 ->
    digits_from fuel1 n acc = digits_from fuel2 n acc.
Proof.
  induction fuel1 as [|fuel1 IH]; intros [|fuel2] n acc H1 H2; try lia.
  cbn [digits_from]. destruct (n <? 10)%nat eqn:E; [reflexivity|].
  apply Nat.ltb_ge in E.
  assert (n / 10 < n) by (apply Nat.div_lt; lia).
  apply IH; lia.
Qed.

(** The rendering of [n] is the rendering of [n / 10] followed by the digit
    of [n mod 10]. *)
Lemma digits_from_acc (fuel : nat) :
  forall (n : nat) (acc : string),
    digits_from fuel n acc
    = (digits_from fuel n EmptyString ++ acc)%string.
Proof.
  induction fuel as [|fuel IH]; intros n acc; cbn [digits_from].
  - reflexivity.
  - destruct (n <? 10)%nat; [reflexivity|].
    rewrite (IH _ (String (digit n) acc)),
            (IH _ (String (digit n) EmptyString)).
    rewrite append_assoc. reflexivity.
Qed.

Lemma str_of_nat_step (n : nat) :
  10 <= n ->
  str_of_nat n
  = (str_of_nat (n / 10) ++ String (digit n) EmptyString)%string.
Proof.
  intro Hn. unfold str_of_nat at 1. cbn [digits_from].
  destruct (n <? 10)%nat eqn:E; [apply Nat.ltb_lt in E; lia|].
  rewrite digits_from_acc. f_equal.
  assert (n / 10 < n) by (apply Nat.div_lt; lia).
  apply digits_from_enough; lia.
Qed.

(** ** The encoder *)

(** The test of the source for a timestamp argument singles out
    [VDatetime]. *)
Lemma datetime_test (v : pyval) :
  contains "datetime" (type_name v) = true <-> exists r, v = VDatetime r.
Proof.
  split.
  - destruct v; vm_compute; intro H; try discriminate H.
    eexists; reflexivity.
  - intros [r ->]. reflexivity.
Qed.

(** The encoder accepts every scalar; it fails on [bytes], with the
    [KeyError] of the table lookup. *)
Lemma encoder_total (arg_name : string) (v : pyval) :
  scalar v = true ->
  exists p, __map_argument_pair_to_data_api_arg arg_name v = Returns p.
Proof.
  intro Hv. destruct v; try (eexists; reflexivity). discriminate Hv.
Qed.

Lemma encoder_name (arg_name : string) (v : pyval) (p : EncodedParameter) :
  __map_argument_pair_to_data_api_arg arg_name v = Returns p ->
  name p = arg_name.
Proof.
  destruct v; cbn; intro H; try discriminate H; injection H as <-;
    reflexivity.
Qed.

(** C6. Encoding a boolean, [True] or [False], under any parameter name
    gives the tagged value [{booleanValue: b}]: its only tag is
    [booleanValue] and it has no [longValue] entry. *)
Theorem boolean_encodes_as_booleanValue (arg_name : string) (b : bool) :
  exists p,
    __map_argument_pair_to_data_api_arg arg_name (VBool b) = Returns p
    /\ name p = arg_name
    /\ value p = [("booleanValue", VBool b)]
    /\ map fst (value p) = ["booleanValue"]
    /\ dict_get (value p) "longValue" = None.
Proof.
  eexists. split; [reflexivity|].
  destruct b; repeat split; reflexivity.
Qed.

(** C10. Encoding [False] gives [{booleanValue: False}] and encoding the
    integer 0 gives [{longValue: 0}]; for every argument the encoder accepts,
    the single stored value is [True] in place of the argument when the
    argument is [None], and otherwise the argument itself (its string
    rendering for a timestamp); a falsy argument other than [None] is stored
    as it is. *)
Theorem only_null_is_replaced_by_true (arg_name : string) :
  __map_argument_pair_to_data_api_arg arg_name (VBool false)
    = Returns {| name := arg_name;
                 value := [("booleanValue", VBool false)];
                 typeHint := None |}
  /\ __map_argument_pair_to_data_api_arg arg_name (VInt 0)
    = Returns {| name := arg_name;
                 value := [("longValue", VInt 0)];
                 typeHint := None |}
  /\ forall v,
       match __map_argument_pair_to_data_api_arg arg_name v with
       | Returns p =>
           map snd (value p) = [stored_value v]
           /\ (truthy v = false -> v <> VNone -> stored_value v = v)
           /\ (dict_get (value p) "isNull" = Some (VBool true) <-> v = VNone)
       | Raises _ => exists b, v = VBytes b
       end.
Proof.
  split; [reflexivity|]. split; [reflexivity|].
  intro v. destruct v; cbn.
  all: try (repeat split; try reflexivity; try discriminate;
            intros; congruence).
  eexists; reflexivity.
Qed.

Lemma only_null_is_replaced_by_true_witness :
  stored_value (VStr EmptyString) = VStr EmptyString
  /\ stored_value (VFloat 0) = VFloat 0.
Proof.
  split.
  - apply (proj2 (proj2 (only_null_is_replaced_by_true "parameter_0"))
             (VStr EmptyString)).
    + reflexivity.
    + discriminate.
  - apply (proj2 (proj2 (only_null_is_replaced_by_true "parameter_0"))
             (VFloat 0)).
    + reflexivity.
    + discriminate.
Defined.

(** ** The decoder *)

Lemma holding_same (self : session) (r : response) :
  data_api_response self = Some r -> holding self r = self.
Proof.
  destruct self as [d n ids l]. cbn. intros ->. reflexivity.
Qed.

Lemma row_values_app (r1 r2 : row) :
  row_values (r1 ++ r2) = row_values r1 ++ row_values r2.
Proof.
  unfold row_values. apply flat_map_app.
Qed.

Lemma dict_get_set {V : Type} (d : dict V) (k k' : string) (v : V) :
  dict_get (dict_set d k v) k'
  = if String.eqb k k' then Some v else dict_get d k'.
Proof.
  induction d as [|[k0 v0] d IH]; cbn; [reflexivity|].
  destruct (String.eqb k0 k) eqn:E0; cbn.
  - apply String.eqb_eq in E0 as ->.
    destruct (String.eqb k k'); reflexivity.
  - rewrite IH. destruct (String.eqb k0 k') eqn:E1; [|reflexivity].
    destruct (String.eqb k k') eqn:E2; [|reflexivity].
    apply String.eqb_eq in E1, E2. subst.
    rewrite String.eqb_refl in E0. discriminate E0.
Qed.

Lemma dict_get_app {V : Type} (d1 d2 : dict V) (k : string) :
  dict_get (d1 ++ d2) k
  = match dict_get d1 k with
    | Some v => Some v
    | None => dict_get d2 k
    end.
Proof.
  induction d1 as [|[k0 v0] d1 IH]; cbn; [reflexivity|].
  destruct (String.eqb k0 k); [reflexivity | exact IH].
Qed.

Lemma dict_get_absent {V : Type} (d : dict V) (k : string) :
  ~ In k (map fst d) -> dict_get d k = None.
Proof.
  induction d as [|[k0 v0] d IH]; cbn; intro H; [reflexivity|].
  destruct (String.eqb k0 k) eqn:E.
  - apply String.eqb_eq in E. exfalso. apply H. left. exact E.
  - apply IH. intro Hin. apply H. right. exact Hin.
Qed.

(** In [dict(pairs)] the last pair of a key gives its value. *)
Lemma dict_of_pairs_get {V : Type} (pairs : list (string * V)) (k : string) :
  forall d,
    dict_get
      (fold_left (fun d kv => dict_set d (fst kv) (snd kv)) pairs d) k
    = match dict_get (rev pairs) k with
      | Some v => Some v
      | None => dict_get d k
      end.
Proof.
  induction pairs as [|[k0 v0] pairs IH]; intro d; cbn [fold_left rev].
  - reflexivity.
  - rewrite IH, dict_get_app, dict_get_set. cbn.
    destruct (dict_get (rev pairs) k); [reflexivity|].
    destruct (String.eqb k0 k); reflexivity.
Qed.

Lemma combine_app_same_length {A B : Type} (l1 l2 : list A)
    (m1 m2 : list B) :
  length l1 = length m1 ->
  combine (l1 ++ l2) (m1 ++ m2) = combine l1 m1 ++ combine l2 m2.
Proof.
  revert m1. induction l1 as [|a l1 IH]; intros [|b m1] H;
    try discriminate H; cbn; [reflexivity|].
  rewrite IH by (injection H as H; exact H). reflexivity.
Qed.

Lemma combine_keys {A B : Type} (l : list A) (m : list B) (a : A) :
  In a (map fst (combine l m)) -> In a l.
Proof.
  revert m. induction l as [|x l IH]; intros [|y m]; cbn; try tauto.
  intros [H | H]; [left; exact H | right; exact (IH m H)].
Qed.

(** C3. Encoding [None] under any parameter name gives the tagged value
    [{isNull: True}]; a cell of a row whose tag is [isNull] contributes
    [None] to the values of the row whatever is stored under the tag, and the
    decoded row maps the label of that cell's column to [None] (the label
    not being the label of a later column); [fetchone] on a one-column
    response whose only cell is such a tagged value, the encoder's
    [{isNull: True}] included, returns the row that maps the column label to
    [None]. *)
Theorem null_round_trip (arg_name : string) :
  __map_argument_pair_to_data_api_arg arg_name VNone
    = Returns {| name := arg_name;
                 value := [("isNull", VBool true)];
                 typeHint := None |}
  /\ (forall (before after : row) (stored : pyval),
        row_values (before ++ [[("isNull", stored)]] ++ after)
        = row_values before ++ [VNone] ++ row_values after)
  /\ (forall (labels1 labels2 : list string) (lbl : string)
             (before after : row) (stored : pyval),
        length labels1 = length (row_values before) ->
        ~ In lbl labels2 ->
        dict_get
          (formatted_row (labels1 ++ lbl :: labels2)
                         (before ++ [[("isNull", stored)]] ++ after))
          lbl
        = Some VNone)
  /\ (forall (self : session) (lbl : string) (stored : pyval)
             (status n : option Z) (gen : option (list field))
             (upd : option (list update_result)),
        fst (fetchone
               (holding self
                  {| columnMetadata := Some [{| label := lbl |}];
                     HTTPStatusCode := status;
                     records := Some [[[("isNull", stored)]]];
                     numberOfRecordsUpdated := n;
                     generatedFields := gen;
                     updateResults := upd |}))
        = Returns (FRow [(lbl, VNone)])).
Proof.
  split; [reflexivity|]. split; [|split].
  - intros before after stored. rewrite !row_values_app. reflexivity.
  - intros labels1 labels2 lbl before after stored Hlen Hnot.
    unfold formatted_row, dict_of_pairs.
    rewrite dict_of_pairs_get, !row_values_app.
    rewrite combine_app_same_length by exact Hlen.
    cbn [row_values flat_map map app fst snd String.eqb Ascii.eqb
         Bool.eqb negb combine].
    rewrite rev_app_distr. cbn [rev]. rewrite <- !app_assoc.
    rewrite dict_get_app, dict_get_absent.
    + cbn. rewrite String.eqb_refl. reflexivity.
    + rewrite map_rev, <- in_rev. intro Hin. apply Hnot.
      exact (combine_keys _ _ _ Hin).
  - intros. reflexivity.
Qed.

Lemma null_round_trip_witness :
  dict_get
    (formatted_row (["id"] ++ "name" :: [])
                   ([[("longValue", VInt 1)]]
                    ++ [[("isNull", VBool true)]] ++ []))
    "name"
  = Some VNone.
Proof.
  apply (null_round_trip "parameter_0").
  - reflexivity.
  - cbn. tauto.
Defined.

(** The decoder on a response without columns and with status 200: it
    returns [None] in every fetch mode and leaves the response as it is. *)
Lemma decode_non_select (fetch_mode : string) (r : response) :
  no_columns r = true ->
  HTTPStatusCode r = Some 200%Z ->
  data_api_response_to_pymysql_response fetch_mode r = (Returns FNone, r).
Proof.
  intros Hc Hs.
  unfold data_api_response_to_pymysql_response, bind, get, item, ret.
  rewrite Hc, Hs. reflexivity.
Qed.

(** C4, as the code has it. For a stored response whose [columnMetadata] is
    empty or absent and whose status is 200, [fetchone] and [fetchall] both
    return [None]; neither raises and neither changes the session. *)
Theorem fetch_non_select_returns_none (self : session) (r : response) :
  data_api_response self = Some r ->
  columnMetadata r = None \/ columnMetadata r = Some [] ->
  HTTPStatusCode r = Some 200%Z ->
  fetchone self = (Returns FNone, self)
  /\ fetchall self = (Returns FNone, self).
Proof.
  intros Hr Hc Hs.
  assert (Hn : no_columns r = true).
  { unfold no_columns. destruct Hc as [-> | ->]; reflexivity. }
  unfold fetchone, fetchall, fetch. rewrite Hr.
  rewrite !decode_non_select by assumption.
  destruct self as [d n ids l]. cbn in Hr. rewrite Hr.
  split; reflexivity.
Qed.

Lemma fetch_non_select_returns_none_witness :
  fetchone (holding init update_response)
    = (Returns FNone, holding init update_response)
  /\ fetchall (holding init update_response)
    = (Returns FNone, holding init update_response).
Proof.
  apply (fetch_non_select_returns_none (holding init update_response)
           update_response).
  - reflexivity.
  - right. reflexivity.
  - reflexivity.
Defined.

(** C4, counterexample: on a successful response with an empty
    [columnMetadata], [fetchall] returns [None], not the empty list. *)
Lemma fetchall_non_select_not_empty_list :
  ~ (forall (self : session) (r : response),
       data_api_response self = Some r ->
       columnMetadata r = None \/ columnMetadata r = Some [] ->
       HTTPStatusCode r = Some 200%Z ->
       fst (fetchone self) = Returns FNone
       /\ fst (fetchall self) = Returns (FRows [])).
Proof.
  intro H.
  destruct (H (holding init update_response) update_response
              eq_refl (or_intror eq_refl) eq_refl) as [_ Hall].
  discriminate Hall.
Qed.



(** ** The cursor methods *)

Lemma startswith_upper (p s : string) :
  startswith (upper p) (upper s) = startswith_ci p s.
Proof.
  revert s. induction p as [|a p IH]; intros [|b s]; cbn; try reflexivity.
  rewrite IH. reflexivity.
Qed.

Lemma contains_upper (p s : string) :
  contains (upper p) (upper s) = contains_ci p s.
Proof.
  induction s as [|c q IH].
  - destruct p; reflexivity.
  - cbn [contains_ci]. rewrite <- IH, <- startswith_upper. reflexivity.
Qed.

(** The test of [execute], ['INSERT' in query.upper()], is containment of
    [INSERT] without regard to case. *)
Lemma insert_test (query : string) :
  contains "INSERT" (upper query) = contains_ci "INSERT" query.
Proof.
  exact (contains_upper "INSERT" query).
Qed.

(** A query without a positional and without a named marker is not
    translated: the function returns [None]. *)
Lemma convert_without_marker (query : string) (args : query_args) :
  contains "%s" query = false ->
  search_named_marker query = false ->
  convert_query_and_query_args_for_data_api query args = Returns None.
Proof.
  intros H1 H2. unfold convert_query_and_query_args_for_data_api.
  rewrite H1, H2. reflexivity.
Qed.

Section Facade.

(** The two operations of the remote service. *)
Variable es : string -> list EncodedParameter -> outcome response.
Variable bs : string -> list (list EncodedParameter) -> outcome response.

(** Nothing in a request touches the session. *)
Lemma send_frame (query : string) (args : query_args) (self : session) :
  snd (send es bs query args self) = self.
Proof.
  unfold send, bind, lift, execute_query.
  destruct (args_truthy args).
  - destruct (and_then _ unpack) as [[q ps]|e]; [|reflexivity].
    destruct (es q ps); reflexivity.
  - destruct (es query []); reflexivity.
Qed.

(** With arguments and a query that has neither kind of marker, [execute]
    raises the [TypeError] of unpacking [None], before anything is sent and
    with the session untouched. *)
Lemma execute_without_marker (query : string) (args : query_args)
    (self : session) :
  args_truthy args = true ->
  contains "%s" query = false ->
  search_named_marker query = false ->
  execute es bs query args self = (Raises TypeError, self).
Proof.
  intros Ha H1 H2. unfold execute, send, bind, lift.
  rewrite Ha, (convert_without_marker query args H1 H2). reflexivity.
Qed.

(** The step that records the last insert id leaves it alone, or sets it to
    the [longValue] of the first generated field of an INSERT. *)
Lemma record_lastrowid_cases (query : string) (r : response)
    (self : session) :
  let self' := snd (record_lastrowid query r self) in
  data_api_response self' = data_api_response self
  /\ returning_ids self' = returning_ids self
  /\ (lastrowid self' = lastrowid self
      \/ contains "INSERT" (upper query) = true
         /\ exists first rest id,
              generatedFields r = Some (first :: rest)
              /\ dict_get first "longValue" = Some id
              /\ lastrowid self' = Some id).
Proof.
  unfold record_lastrowid, bind, item, ret, raise, set_lastrowid.
  destruct (contains "INSERT" (upper query)); [|cbn; auto].
  destruct (generatedFields r) as [[|first rest]|]; cbn; auto.
  destruct (dict_get first "longValue") as [id|] eqn:Hid; cbn; auto.
  split; [reflexivity|]. split; [reflexivity|]. right.
  split; [reflexivity|]. exists first, rest, id. auto.
Qed.

Lemma record_affected_rows_frame (r : response) (self : session) :
  let self' := snd (record_affected_rows r self) in
  data_api_response self' = data_api_response self
  /\ returning_ids self' = returning_ids self
  /\ lastrowid self' = lastrowid self.
Proof.
  unfold record_affected_rows, bind, item, ret, raise,
    set_number_of_affected_rows.
  destruct (numberOfRecordsUpdated r); cbn; auto.
Qed.

(** What one call of [execute] does to the session: nothing when the
    translation or the request raised; otherwise the response [r] of the
    service is stored, and the last insert id is either left alone or, for an
    INSERT with a first generated field that has a [longValue], set to that
    value. *)
Lemma execute_cases (query : string) (args : query_args) (self : session) :
  let self' := snd (execute es bs query args self) in
  self' = self
  \/ exists r,
       fst (send es bs query args self) = Returns r
       /\ data_api_response self' = Some r
       /\ returning_ids self' = returning_ids self
       /\ (lastrowid self' = lastrowid self
           \/ contains "INSERT" (upper query) = true
              /\ exists first rest id,
                   generatedFields r = Some (first :: rest)
                   /\ dict_get first "longValue" = Some id
                   /\ lastrowid self' = Some id).
Proof.
  unfold execute, bind.
  pose proof (send_frame query args self) as Hs.
  destruct (send es bs query args self) as [[r|e] s1]; cbn in Hs; subst s1;
    [|left; reflexivity].
  right. exists r. split; [reflexivity|].
  cbn [set_data_api_response].
  set (s1 := {| data_api_response := Some r;
                number_of_affected_rows := number_of_affected_rows self;
                returning_ids := returning_ids self;
                lastrowid := lastrowid self |}).
  pose proof (record_lastrowid_cases query r s1) as Hl. cbv zeta in Hl.
  destruct (record_lastrowid query r s1) as [[[]|e] s2]; cbn in Hl.
  - pose proof (record_affected_rows_frame r s2) as Ha. cbv zeta in Ha.
    destruct Ha as (Ha1 & Ha2 & Ha3). rewrite Ha1, Ha2, Ha3. exact Hl.
  - cbn. exact Hl.
Qed.

(** C9. For an ASCII query text: [execute] leaves [lastrowid] as it was
    for every query that does not contain INSERT in any letter case, and for
    every query whose response has an empty [generatedFields] list; when
    [lastrowid] differs after the call, the query contains INSERT, the
    response has a first generated field and [lastrowid] is the [longValue]
    of that field. The test of the code, ['INSERT' in query.upper()], is that
    containment without regard to case. *)
Theorem execute_lastrowid_frame (query : string) (args : query_args)
    (self : session) :
  ascii_text query = true ->
  let self' := snd (execute es bs query args self) in
  (contains_ci "INSERT" query = false -> lastrowid self' = lastrowid self)
  /\ (forall r,
        fst (send es bs query args self) = Returns r ->
        generatedFields r = Some [] ->
        lastrowid self' = lastrowid self)
  /\ (lastrowid self' <> lastrowid self ->
      contains_ci "INSERT" query = true
      /\ exists r first rest,
           fst (send es bs query args self) = Returns r
           /\ data_api_response self' = Some r
           /\ generatedFields r = Some (first :: rest)
           /\ lastrowid self' = dict_get first "longValue")
  /\ contains "INSERT" (upper query) = contains_ci "INSERT" query.
Proof.
  intros _. cbv zeta. rewrite <- insert_test.
  pose proof (execute_cases query args self) as H. cbv zeta in H.
  destruct H as [H | (r & Hsend & Hr & _ & H)].
  - rewrite H. repeat split; try reflexivity; intros; try reflexivity.
    all: exfalso; auto.
  - destruct H as [H | (Hi & first & rest & id & Hg & Hid & Hl)].
    + repeat split; intros; try assumption; exfalso; auto.
    + split; [|split; [|split]].
      * intro Hn. rewrite Hi in Hn. discriminate Hn.
      * intros r' Hr' Hg'. rewrite Hsend in Hr'.
        injection Hr' as <-. rewrite Hg in Hg'. discriminate Hg'.
      * intros _. split; [exact Hi|].
        exists r, first, rest. rewrite Hid. auto.
      * reflexivity.
Qed.

Lemma accepted_id_iff (result : update_result) (id : pyval) :
  accepted_id result = [id]
  <-> exists first rest,
        result_generatedFields result = Some (first :: rest)
        /\ dict_get first "longValue" = Some id
        /\ truthy id = true.
Proof.
  unfold accepted_id. split.
  - destruct (result_generatedFields result) as [[|first rest]|];
      try discriminate.
    destruct (dict_get first "longValue") as [v|] eqn:Hd; try discriminate.
    destruct (truthy v) eqn:Ht; try discriminate.
    intro H. injection H as Hv. subst v. exists first, rest. auto.
  - intros (first & rest & -> & -> & ->). reflexivity.
Qed.

Lemma accepted_id_none (result : update_result) :
  accepted_id result = []
  <-> ~ exists id, accepted_id result = [id].
Proof.
  unfold accepted_id.
  destruct (result_generatedFields result) as [[|first rest]|].
  2: destruct (dict_get first "longValue") as [v|].
  2: destruct (truthy v).
  all: split; intro H; try reflexivity; try discriminate H.
  all: try (intros [id Hid]; discriminate Hid).
  exfalso. apply H. eexists. reflexivity.
Qed.

(** The loop over [updateResults] appends the accepted ids in order. *)
Lemma collect_returning_ids_appends (results : list update_result) :
  Forall (fun result => result_generatedFields result <> None) results ->
  forall self,
    collect_returning_ids results self
    = (Returns tt, with_more_ids self (flat_map accepted_id results)).
Proof.
  induction 1 as [|result results Hg _ IH]; intro self.
  - cbn. unfold ret, with_more_ids. rewrite app_nil_r.
    destruct self; reflexivity.
  - cbn [collect_returning_ids flat_map].
    unfold bind, item, accepted_id.
    destruct (result_generatedFields result) as [[|first rest]|];
      [| |congruence]; cbn.
    + apply IH.
    + destruct (dict_get first "longValue") as [id|]; [|apply IH].
      destruct (truthy id); [|apply IH].
      cbn. rewrite IH. unfold with_more_ids. cbn.
      rewrite <- app_assoc. reflexivity.
Qed.

(** C5, as the code has it. When the translation of every argument set and
    the batch request succeed and every per-row result has its
    [generatedFields], one call of [executemany] returns the number of
    per-row results and appends to the accumulated ids, for each result in
    order, the [longValue] of its first generated field if and only if the
    list of generated fields is not empty and that field has a [longValue]
    that is truthy. *)
Theorem executemany_collects_truthy_long_ids (query : string)
    (query_args_list : list query_args) (self : session)
    (new_query : string) (sets : list (list EncodedParameter))
    (r : response) (results : list update_result) :
  translate_each query query_args_list query [] = Returns (new_query, sets) ->
  bs new_query sets = Returns r ->
  updateResults r = Some results ->
  Forall (fun result => result_generatedFields result <> None) results ->
  let out := executemany es bs query query_args_list self in
  fst out = Returns (Z.of_nat (length results))
  /\ returning_ids (snd out)
     = returning_ids self ++ flat_map accepted_id results
  /\ number_of_affected_rows (snd out) = Some (Z.of_nat (length results))
  /\ (forall result id,
        accepted_id result = [id]
        <-> exists first rest,
              result_generatedFields result = Some (first :: rest)
              /\ dict_get first "longValue" = Some id
              /\ truthy id = true)
  /\ (forall result,
        accepted_id result = []
        <-> ~ exists id, accepted_id result = [id]).
Proof.
  intros Ht Hb Hu Hg. cbv zeta.
  unfold executemany, bind, lift, execute_query.
  rewrite Ht, Hb. unfold lift, item. rewrite Hu.
  unfold ret, set_data_api_response.
  rewrite collect_returning_ids_appends by assumption.
  cbn. repeat split; try apply accepted_id_iff; try apply accepted_id_none.
Qed.

End Facade.

(** ** Concrete services and the examples of the specification *)

Lemma execute_lastrowid_frame_witness :
  lastrowid
    (snd (execute (answering insert_response) (batch_answering insert_response)
                  "select id from t" ArgsNone init))
  = lastrowid init
  /\ lastrowid
       (snd (execute (answering update_response)
                     (batch_answering update_response)
                     "insert into t values (%s)" (ArgsSeq [VInt 7]) init))
     = lastrowid init
  /\ (contains_ci "INSERT" "Insert into t values (%s)" = true
      /\ exists r first rest,
           fst (send (answering insert_response)
                     (batch_answering insert_response)
                     "Insert into t values (%s)" (ArgsSeq [VInt 7]) init)
           = Returns r
           /\ data_api_response
                (snd (execute (answering insert_response)
                              (batch_answering insert_response)
                              "Insert into t values (%s)" (ArgsSeq [VInt 7])
                              init))
              = Some r
           /\ generatedFields r = Some (first :: rest)
           /\ lastrowid
                (snd (execute (answering insert_response)
                              (batch_answering insert_response)
                              "Insert into t values (%s)" (ArgsSeq [VInt 7])
                              init))
              = dict_get first "longValue").
Proof.
  split; [|split].
  - apply (execute_lastrowid_frame (answering insert_response)
             (batch_answering insert_response) "select id from t" ArgsNone
             init).
    + reflexivity.
    + reflexivity.
  - apply (proj1 (proj2 (execute_lastrowid_frame (answering update_response)
             (batch_answering update_response) "insert into t values (%s)"
             (ArgsSeq [VInt 7]) init eq_refl)) update_response).
    + reflexivity.
    + reflexivity.
  - apply (proj1 (proj2 (proj2 (execute_lastrowid_frame
             (answering insert_response) (batch_answering insert_response)
             "Insert into t values (%s)" (ArgsSeq [VInt 7]) init eq_refl)))).
    vm_compute. discriminate.
Defined.

Lemma executemany_collects_truthy_long_ids_witness :
  let out :=
    executemany (answering (batch_response batch_results))
                (batch_answering (batch_response batch_results))
                "insert into t values (%s)"
                [ArgsSeq [VInt 1]; ArgsSeq [VInt 2]; ArgsSeq [VInt 3]] init in
  fst out = Returns 3%Z /\ returning_ids (snd out) = [VInt 5].
Proof.
  destruct (executemany_collects_truthy_long_ids
              (answering (batch_response batch_results))
              (batch_answering (batch_response batch_results))
              "insert into t values (%s)"
              [ArgsSeq [VInt 1]; ArgsSeq [VInt 2]; ArgsSeq [VInt 3]] init
              "insert into t values (:parameter_0)"
              [[{| name := "parameter_0"; value := [("longValue", VInt 1)];
                   typeHint := None |}];
               [{| name := "parameter_0"; value := [("longValue", VInt 2)];
                   typeHint := None |}];
               [{| name := "parameter_0"; value := [("longValue", VInt 3)];
                   typeHint := None |}]]
              (batch_response batch_results) batch_results)
    as (H1 & H2 & _).
  - vm_compute. reflexivity.
  - reflexivity.
  - reflexivity.
  - repeat constructor; discriminate.
  - split; [exact H1 | exact H2].
Defined.

(** C5, counterexample: a first generated field [{stringValue: 'abc'}] has
    a truthy unwrapped value, and [executemany] appends nothing for it. *)
Lemma executemany_skips_truthy_string_id :
  ~ (forall (es : string -> list EncodedParameter -> outcome response)
            (bs : string -> list (list EncodedParameter) -> outcome response)
            (query : string) (query_args_list : list query_args)
            (self : session) (new_query : string)
            (sets : list (list EncodedParameter)) (r : response)
            (results : list update_result),
       translate_each query query_args_list query []
         = Returns (new_query, sets) ->
       bs new_query sets = Returns r ->
       updateResults r = Some results ->
       Forall (fun result => result_generatedFields result <> None) results ->
       returning_ids (snd (executemany es bs query query_args_list self))
       = returning_ids self ++ flat_map truthy_unwrapped_id results).
Proof.
  intro H.
  pose (results :=
          [{| result_generatedFields := Some [[("stringValue", VStr "abc")]] |}]).
  specialize (H (answering (batch_response results))
                (batch_answering (batch_response results))
                "insert into t values (%s)" [ArgsSeq [VStr "x"]] init
                "insert into t values (:parameter_0)"
                [[{| name := "parameter_0";
                     value := [("stringValue", VStr "x")];
                     typeHint := None |}]]
                (batch_response results) results).
  assert (Hf : Forall (fun result => result_generatedFields result <> None)
                      results).
  { repeat constructor. discriminate. }
  specialize (H eq_refl eq_refl eq_refl Hf).
  vm_compute in H. discriminate H.
Qed.

(** C2, on the code. For the query [SELECT 1], which has neither kind of
    marker, and the one argument 1, the translation returns [None] and not a
    pair of the query and an empty parameter list, and [execute] raises
    [TypeError] when it unpacks that result; nothing is sent to the service
    and the session is unchanged. *)
Theorem execute_unmarked_query_raises
    (es : string -> list EncodedParameter -> outcome response)
    (bs : string -> list (list EncodedParameter) -> outcome response)
    (self : session) :
  contains "%s" "SELECT 1" = false
  /\ search_named_marker "SELECT 1" = false
  /\ args_truthy (ArgsSeq [VInt 1]) = true
  /\ convert_query_and_query_args_for_data_api "SELECT 1" (ArgsSeq [VInt 1])
     = Returns None
  /\ convert_query_and_query_args_for_data_api "SELECT 1" (ArgsSeq [VInt 1])
     <> Returns (Some ("SELECT 1", []))
  /\ execute es bs "SELECT 1" (ArgsSeq [VInt 1]) self
     = (Raises TypeError, self).
Proof.
  repeat split; try reflexivity; try discriminate.
Qed.

(** ** The translator: positional markers *)

Local Open Scope string_scope.

Lemma startswith_app (p s : string) :
  startswith p s = true <-> exists r, s = p ++ r.
Proof.
  revert s. induction p as [|a p IH]; intro s; cbn.
  - split; [intros _; exists s; reflexivity | reflexivity].
  - destruct s as [|b s].
    + split; [discriminate | intros [r Hr]; discriminate Hr].
    + rewrite andb_true_iff, Ascii.eqb_eq, IH. split.
      * intros [-> [r ->]]. exists r. reflexivity.
      * intros [r Hr]. injection Hr as -> ->. split; [reflexivity|].
        exists r. reflexivity.
Qed.

Lemma startswith_longer (p s x : string) :
  startswith p s = true -> startswith p (s ++ x) = true.
Proof.
  rewrite !startswith_app. intros [r ->]. exists (r ++ x).
  apply append_assoc.
Qed.

Lemma contains_middle (sub a b : string) :
  contains sub (a ++ sub ++ b) = true.
Proof.
  induction a as [|c a IH].
  - cbn [append].
    assert (H : startswith sub (sub ++ b) = true)
      by (apply startswith_app; exists b; reflexivity).
    destruct (sub ++ b) as [|x y] eqn:E; cbn [contains]; rewrite H;
      reflexivity.
  - cbn [append contains]. rewrite IH. apply orb_true_r.
Qed.

(** Once the count is used up, [replace] copies the rest. *)
Lemma replace_from_done (old new s : string) :
  replace_from old new (Some 0) 0 s = s.
Proof.
  induction s as [|c s IH]; cbn; [reflexivity|]. rewrite IH. reflexivity.
Qed.

(** A string without a marker, followed by a percent sign, has no marker at
    its first position. *)
Lemma no_marker_before_percent (c : ascii) (p x : string) :
  startswith "%s" (String c p) = false ->
  startswith "%s" (String c (p ++ String "%" x)) = false.
Proof.
  destruct p as [|d p]; cbn [startswith append].
  - intros _. destruct (Ascii.eqb "%" c); reflexivity.
  - intro H. exact H.
Qed.

(** [replace('%s', new, 1)] rewrites the first marker: the one after a
    prefix that has none. *)
Lemma replace_first_marker (new p rest : string) :
  contains "%s" p = false ->
  str_replace "%s" new (Some 1) (p ++ "%s" ++ rest) = p ++ new ++ rest.
Proof.
  unfold str_replace. induction p as [|c p IH]; intro Hp.
  - cbn [append replace_from may_replace startswith andb used_one
         String.length Nat.pred].
    rewrite !Ascii.eqb_refl. cbn [andb]. rewrite replace_from_done.
    reflexivity.
  - cbn [contains] in Hp. apply orb_false_iff in Hp as [Hc Hp].
    cbn [append replace_from may_replace andb].
    change ("%s" ++ rest) with (String "%" (String "s" rest)).
    rewrite (no_marker_before_percent c p _ Hc).
    rewrite <- IH by assumption. reflexivity.
Qed.

Lemma no_marker_app (a b : string) :
  contains "%s" a = false ->
  contains "%s" b = false ->
  startswith "s" b = false ->
  contains "%s" (a ++ b) = false.
Proof.
  intros Ha Hb Hs. induction a as [|c a IH]; [exact Hb|].
  cbn [contains] in Ha. apply orb_false_iff in Ha as [Hc Ha].
  cbn [append contains]. rewrite (IH Ha), orb_false_r.
  destruct a as [|d a]; [|exact Hc].
  cbn [append]. destruct b as [|d b]; [exact Hc|].
  cbn [startswith] in Hs |- *. rewrite Hs.
  destruct (Ascii.eqb "%" c); reflexivity.
Qed.

Lemma no_percent_no_marker (m b : string) :
  no_percent m = true ->
  contains "%s" b = false ->
  contains "%s" (m ++ b) = false.
Proof.
  intros Hm Hb. induction m as [|c m IH]; [exact Hb|].
  cbn [no_percent] in Hm. apply andb_true_iff in Hm as [Hc Hm].
  cbn [append contains]. rewrite (IH Hm), orb_false_r.
  cbn [startswith]. rewrite Ascii.eqb_sym. apply negb_true_iff in Hc.
  rewrite Hc. destruct (m ++ b); reflexivity.
Qed.

Lemma no_percent_app (a b : string) :
  no_percent a = true -> no_percent b = true -> no_percent (a ++ b) = true.
Proof.
  intros Ha Hb. induction a as [|c a IH]; [exact Hb|].
  cbn [no_percent] in Ha. apply andb_true_iff in Ha as [Hc Ha].
  cbn [append no_percent]. rewrite Hc, (IH Ha). reflexivity.
Qed.

Lemma digit_not_percent (n : nat) : Ascii.eqb (digit n) "%" = false.
Proof.
  unfold digit.
  assert (H : n mod 10 < 10) by (apply Nat.mod_upper_bound; discriminate).
  destruct (n mod 10) as [|[|[|[|[|[|[|[|[|[|k]]]]]]]]]]; try reflexivity.
  lia.
Qed.

Lemma digits_no_percent (fuel n : nat) (acc : string) :
  no_percent acc = true -> no_percent (digits_from fuel n acc) = true.
Proof.
  revert n acc.
  induction fuel as [|fuel IH]; intros n acc Hacc; cbn [digits_from].
  - exact Hacc.
  - assert (H : no_percent (String (digit n) acc) = true).
    { cbn [no_percent]. rewrite digit_not_percent, Hacc. reflexivity. }
    destruct (n <? 10)%nat; [exact H | apply IH; exact H].
Qed.

Lemma placeholder_no_percent (index : nat) :
  no_percent (":" ++ parameter_name index) = true.
Proof.
  apply (no_percent_app ":parameter_" (str_of_nat index)); [reflexivity|].
  apply digits_no_percent. reflexivity.
Qed.

(** A placeholder and a piece without a marker, put after a prefix without
    a marker, bring no marker. *)
Lemma no_marker_extend (u p : string) (index : nat) :
  contains "%s" u = false ->
  contains "%s" p = false ->
  contains "%s" (u ++ (":" ++ parameter_name index) ++ p) = false.
Proof.
  intros Hu Hp. apply no_marker_app.
  - exact Hu.
  - apply no_percent_no_marker; [apply placeholder_no_percent | exact Hp].
  - reflexivity.
Qed.

(** The loop of the positional translation, on a query cut at its markers:
    every marker is rewritten to the placeholder of its position and every
    argument is encoded under that name. *)
Lemma list_or_tuple_loop_spec (args : list pyval) :
  forall (pieces : list string) (index : nat) (u : string)
         (acc : list EncodedParameter),
    length pieces = length args ->
    Forall (fun v => scalar v = true) args ->
    contains "%s" u = false ->
    Forall (fun p => contains "%s" p = false) pieces ->
    exists params,
      encoded_from index args params
      /\ list_or_tuple_loop index args (u ++ with_markers pieces) acc
         = Returns (u ++ with_parameters index pieces, (acc ++ params)%list).
Proof.
  induction args as [|v args IH]; intros [|p ps] index u acc Hlen Hv Hu Hps;
    try discriminate Hlen.
  - exists []. split; [constructor|]. cbn. rewrite app_nil_r. reflexivity.
  - inversion Hv as [|? ? Hv1 Hv2]; subst.
    inversion Hps as [|? ? Hp1 Hp2]; subst.
    destruct (encoder_total (parameter_name index) v Hv1) as (e & He).
    injection Hlen as Hlen.
    destruct (IH ps (S index) (u ++ (":" ++ parameter_name index) ++ p)
                 (acc ++ [e])%list Hlen Hv2
                 (no_marker_extend u p index Hu Hp1) Hp2)
      as (params & Hparams & Hloop).
    exists (e :: params). split; [econstructor; eassumption|].
    cbn [list_or_tuple_loop with_markers with_parameters].
    fold (parameter_name index). rewrite He. cbn [and_then].
    rewrite replace_first_marker by exact Hu.
    rewrite !append_assoc in Hloop. rewrite <- !app_assoc in Hloop.
    rewrite !append_assoc. exact Hloop.
Qed.

Lemma no_marker_with_parameters (pieces : list string) :
  forall (index : nat) (u : string),
    contains "%s" u = false ->
    Forall (fun p => contains "%s" p = false) pieces ->
    contains "%s" (u ++ with_parameters index pieces) = false.
Proof.
  induction pieces as [|p ps IH]; intros index u Hu Hps.
  - cbn [with_parameters]. apply no_marker_app; [exact Hu | | ]; reflexivity.
  - inversion Hps as [|? ? Hp1 Hp2]; subst.
    cbn [with_parameters].
    pose proof (IH (S index) _ (no_marker_extend u p index Hu Hp1) Hp2) as H.
    rewrite !append_assoc in H. exact H.
Qed.

Lemma encoded_from_names (index : nat) (args : list pyval)
    (params : list EncodedParameter) :
  encoded_from index args params ->
  length params = length args
  /\ map name params = map parameter_name (seq index (length args)).
Proof.
  induction 1 as [|index v p args params He _ [IH1 IH2]]; cbn.
  - split; reflexivity.
  - rewrite IH1, IH2, (encoder_name _ _ _ He). split; reflexivity.
Qed.

Lemma count_marker_here (r : string) :
  str_count "%s" ("%s" ++ r) = S (str_count "%s" r).
Proof.
  reflexivity.
Qed.

Lemma count_marker_skip (c : ascii) (r : string) :
  startswith "%s" (String c r) = false ->
  str_count "%s" (String c r) = str_count "%s" r.
Proof.
  intro H. unfold str_count. cbn [count_from]. rewrite H. reflexivity.
Qed.

(** Every query is a head without a marker followed by its markers, each
    with the piece after it; there are as many pieces as [count('%s')]. *)
Lemma cut_at_markers (n : nat) :
  forall query,
    String.length query <= n ->
    exists head pieces,
      query = head ++ with_markers pieces
      /\ contains "%s" head = false
      /\ Forall (fun p => contains "%s" p = false) pieces
      /\ length pieces = str_count "%s" query.
Proof.
  induction n as [|n IH]; intros [|c q] Hlen; cbn [String.length] in Hlen.
  1, 3: exists EmptyString, []; repeat split; constructor.
  - lia.
  - destruct (startswith "%s" (String c q)) eqn:E.
    + apply startswith_app in E as [r Hr]. cbn [append] in Hr.
      injection Hr as -> ->. cbn [String.length] in Hlen.
      destruct (IH r ltac:(lia)) as (head & pieces & Hq & Hh & Hp & Hc).
      exists EmptyString, (head :: pieces). repeat split.
      * cbn [with_markers append]. rewrite <- Hq. reflexivity.
      * constructor; assumption.
      * change (String "%" (String "s" r)) with ("%s" ++ r).
        rewrite count_marker_here, <- Hc. reflexivity.
    + destruct (IH q ltac:(lia)) as (head & pieces & Hq & Hh & Hp & Hc).
      exists (String c head), pieces. repeat split.
      * cbn [append]. rewrite <- Hq. reflexivity.
      * cbn [contains]. rewrite Hh, orb_false_r.
        destruct (startswith "%s" (String c head)) eqn:E'; [|reflexivity].
        apply (startswith_longer _ _ (with_markers pieces)) in E'.
        cbn [append] in E'. rewrite <- Hq, E in E'. discriminate E'.
      * exact Hp.
      * rewrite count_marker_skip by exact E. exact Hc.
Qed.

(** C1, as the code has it. For every query with exactly k >= 1 markers
    ['%s'] and every sequence of k scalar arguments, the translation returns
    the query in which the i-th marker from the left, counted from 0, is
    replaced by [:parameter_i], and in which no marker is left, together with
    k encoded parameters: the i-th is the encoding of the i-th argument under
    the name [parameter_i]. The query is described by its cut at the markers:
    [head], then for each marker the piece that follows it. *)
Theorem positional_translation (query : string) (args : list pyval) :
  1 <= length args ->
  str_count "%s" query = length args ->
  Forall (fun v => scalar v = true) args ->
  exists head pieces params,
    query = head ++ with_markers pieces
    /\ contains "%s" head = false
    /\ Forall (fun p => contains "%s" p = false) pieces
    /\ length pieces = length args
    /\ convert_query_and_query_args_for_data_api query (ArgsSeq args)
       = Returns (Some (head ++ with_parameters 0 pieces, params))
    /\ contains "%s" (head ++ with_parameters 0 pieces) = false
    /\ length params = length args
    /\ map name params = map parameter_name (seq 0 (length args))
    /\ encoded_from 0 args params.
Proof.
  intros Hk Hcount Hargs.
  destruct (cut_at_markers (String.length query) query (le_n _))
    as (head & pieces & Hq & Hh & Hp & Hc).
  rewrite Hcount in Hc.
  destruct (list_or_tuple_loop_spec args pieces 0 head [] Hc Hargs Hh Hp)
    as (params & Henc & Hloop).
  destruct (encoded_from_names 0 args params Henc) as [Hlen Hnames].
  exists head, pieces, params.
  repeat split; try assumption.
  - unfold convert_query_and_query_args_for_data_api.
    assert (Hin : contains "%s" query = true).
    { destruct pieces as [|p ps]; [cbn in Hc; lia|].
      rewrite Hq. cbn [with_markers]. apply contains_middle. }
    rewrite Hin.
    unfold __convert_query_and_list_or_tuple_query_args.
    cbn [iterate and_then]. rewrite Hq, Hloop. reflexivity.
  - apply no_marker_with_parameters; assumption.
Qed.

Lemma positional_translation_witness :
  exists head pieces params,
    "SELECT %s, %s" = head ++ with_markers pieces
    /\ contains "%s" head = false
    /\ Forall (fun p => contains "%s" p = false) pieces
    /\ length pieces = 2
    /\ convert_query_and_query_args_for_data_api "SELECT %s, %s"
         (ArgsSeq [VInt 1; VNone])
       = Returns (Some (head ++ with_parameters 0 pieces, params))
    /\ contains "%s" (head ++ with_parameters 0 pieces) = false
    /\ length params = 2
    /\ map name params = map parameter_name (seq 0 2)
    /\ encoded_from 0 [VInt 1; VNone] params.
Proof.
  apply (positional_translation "SELECT %s, %s" [VInt 1; VNone]).
  - cbn. lia.
  - reflexivity.
  - repeat constructor.
Defined.

(** C1, counterexample for k = 0: a query without a marker and an empty
    argument sequence are not translated to the query and an empty parameter
    list; the function returns [None]. *)
Lemma positional_translation_fails_without_marker :
  ~ (forall (query : string) (args : list pyval),
       str_count "%s" query = length args ->
       Forall (fun v => scalar v = true) args ->
       exists new_query params,
         convert_query_and_query_args_for_data_api query (ArgsSeq args)
         = Returns (Some (new_query, params))
         /\ length params = length args).
Proof.
  intro H.
  destruct (H "SELECT 1" [] eq_refl (Forall_nil _))
    as (new_query & params & Hc & _).
  discriminate Hc.
Qed.

(** ** The translator: named markers *)

Lemma startswith_cons (a c : ascii) (p s : string) :
  startswith (String a p) (String c s) = Ascii.eqb a c && startswith p s.
Proof.
  reflexivity.
Qed.

Lemma replace_skip (old new : string) (c : ascii) (r : string) :
  startswith old (String c r) = false ->
  replace_from old new None 0 (String c r)
  = String c (replace_from old new None 0 r).
Proof.
  intro H. cbn [replace_from may_replace andb]. rewrite H. reflexivity.
Qed.

(** Where the output of [replace] starts with characters that are not the
    first character of the replacement, the input starts with the same
    characters. *)
Lemma replace_reflects_prefix (old new' : string) (n0 : ascii) (p : string) :
  avoids n0 p = true ->
  forall r,
    startswith p (replace_from old (String n0 new') None 0 r) = true ->
    startswith p r = true.
Proof.
  induction p as [|a p IH]; intros Hp r H; [reflexivity|].
  cbn [avoids] in Hp. apply andb_true_iff in Hp as [Ha Hp].
  apply negb_true_iff in Ha.
  destruct r as [|c r]; [discriminate H|].
  cbn [replace_from may_replace andb] in H.
  destruct (startswith old (String c r)).
  - cbn [append startswith] in H. rewrite Ha in H. discriminate H.
  - cbn [startswith] in H |- *. apply andb_true_iff in H as [Hc H].
    rewrite Hc, (IH Hp r H). reflexivity.
Qed.

Lemma first_match_named_ab (s : string) :
  first_match named_ab s
  = if startswith "%(a)s" s then Some ("%(a)s", ":a")
    else if startswith "%(b)s" s then Some ("%(b)s", ":b")
    else None.
Proof.
  reflexivity.
Qed.

Lemma substitute_reflects_prefix (p : string) :
  avoids ":" p = true ->
  forall r,
    startswith p (substitute_all named_ab r) = true ->
    startswith p r = true.
Proof.
  unfold substitute_all.
  induction p as [|a p IH]; intros Hp r H; [reflexivity|].
  cbn [avoids] in Hp. apply andb_true_iff in Hp as [Ha Hp].
  apply negb_true_iff in Ha.
  destruct r as [|c r]; [discriminate H|].
  cbn [substitute_from] in H. rewrite first_match_named_ab in H.
  destruct (startswith "%(a)s" (String c r)).
  { cbn [append startswith] in H. rewrite Ha in H. discriminate H. }
  destruct (startswith "%(b)s" (String c r)).
  { cbn [append startswith] in H. rewrite Ha in H. discriminate H. }
  cbn [startswith] in H |- *. apply andb_true_iff in H as [Hc H].
  rewrite Hc, (IH Hp r H). reflexivity.
Qed.

(** A marker that starts [c] followed by the output of a pass starts [c]
    followed by its input. *)
Lemma marker_reflected (marker : string) (c : ascii) (out r : string) :
  (forall p, avoids ":" p = true ->
             startswith p out = true -> startswith p r = true) ->
  marker = "%(a)s" \/ marker = "%(b)s" ->
  startswith marker (String c r) = false ->
  startswith marker (String c out) = false.
Proof.
  intros Hout Hm Hr.
  destruct (startswith marker (String c out)) eqn:E; [|reflexivity].
  destruct Hm as [-> | ->]; rewrite startswith_cons in E, Hr;
    apply andb_true_iff in E as [Ec E]; rewrite Ec in Hr;
    cbn [andb] in Hr.
  - rewrite (Hout "(a)s" eq_refl E) in Hr. discriminate Hr.
  - rewrite (Hout "(b)s" eq_refl E) in Hr. discriminate Hr.
Qed.

(** Replacing the markers of [a] and then those of [b], as the loop of the
    named translation does, is the single pass that replaces both. *)
Lemma sequential_is_simultaneous (n : nat) :
  forall query,
    String.length query <= n ->
    replace_from "%(b)s" ":b" None 0 (replace_from "%(a)s" ":a" None 0 query)
    = substitute_all named_ab query.
Proof.
  induction n as [|n IH]; intros query Hlen.
  { destruct query; [reflexivity | cbn in Hlen; lia]. }
  destruct (startswith "%(a)s" query) eqn:EA.
  { apply startswith_app in EA as [r ->].
    change (":a" ++ replace_from "%(b)s" ":b" None 0
                      (replace_from "%(a)s" ":a" None 0 r)
            = ":a" ++ substitute_all named_ab r).
    rewrite IH; [reflexivity | cbn in Hlen; lia]. }
  destruct (startswith "%(b)s" query) eqn:EB.
  { apply startswith_app in EB as [r ->].
    change (":b" ++ replace_from "%(b)s" ":b" None 0
                      (replace_from "%(a)s" ":a" None 0 r)
            = ":b" ++ substitute_all named_ab r).
    rewrite IH; [reflexivity | cbn in Hlen; lia]. }
  destruct query as [|c r]; [reflexivity|].
  rewrite (replace_skip _ _ _ _ EA).
  rewrite replace_skip.
  - unfold substitute_all. cbn [substitute_from].
    rewrite first_match_named_ab, EA, EB.
    fold (substitute_all named_ab r).
    rewrite IH; [reflexivity | cbn in Hlen; lia].
  - apply (marker_reflected "%(b)s" c _ r); [|right; reflexivity|exact EB].
    intros p Hp. apply (replace_reflects_prefix "%(a)s" "a" ":" p Hp).
Qed.

(** The single pass leaves no marker of [a] and none of [b]. *)
Lemma no_named_marker_left (marker : string) :
  marker = "%(a)s" \/ marker = "%(b)s" ->
  forall n query,
    String.length query <= n ->
    contains marker (substitute_all named_ab query) = false.
Proof.
  intros Hm. induction n as [|n IH]; intros query Hlen.
  { destruct query; [|cbn in Hlen; lia]. destruct Hm as [-> | ->];
      reflexivity. }
  destruct (startswith "%(a)s" query) eqn:EA.
  { apply startswith_app in EA as [r ->].
    transitivity (contains marker (substitute_all named_ab r));
      [|apply IH; cbn in Hlen; lia].
    destruct Hm as [-> | ->]; reflexivity. }
  destruct (startswith "%(b)s" query) eqn:EB.
  { apply startswith_app in EB as [r ->].
    transitivity (contains marker (substitute_all named_ab r));
      [|apply IH; cbn in Hlen; lia].
    destruct Hm as [-> | ->]; reflexivity. }
  destruct query as [|c r].
  { destruct Hm as [-> | ->]; reflexivity. }
  unfold substitute_all. cbn [substitute_from].
  rewrite first_match_named_ab, EA, EB.
  fold (substitute_all named_ab r). cbn [contains].
  rewrite IH; [|cbn in Hlen; lia]. rewrite orb_false_r.
  apply (marker_reflected marker c _ r); [|exact Hm|].
  - intros p Hp. apply (substitute_reflects_prefix p Hp).
  - destruct Hm as [-> | ->]; assumption.
Qed.

(** A query with the named marker of [a] matches the pattern of the named
    mode. *)
Lemma named_marker_found (query : string) :
  contains "%(a)s" query = true -> search_named_marker query = true.
Proof.
  induction query as [|c r IH]; intro H; [discriminate H|].
  cbn [contains] in H. apply orb_true_iff in H as [H | H].
  - apply startswith_app in H as [r0 Hr]. rewrite Hr. reflexivity.
  - cbn [search_named_marker]. rewrite (IH H). apply orb_true_r.
Qed.

(** C8. For every query that contains the named markers [%(a)s] and
    [%(b)s] and no positional marker, and the arguments
    [{a: 1, b: 'x'}], the translation returns the query in which every
    occurrence of [%(a)s] is replaced by [:a] and every occurrence of
    [%(b)s] by [:b], so that none of the two markers is left, together with
    exactly the two parameters [{name: a, value: {longValue: 1}}] and
    [{name: b, value: {stringValue: 'x'}}]. *)
Theorem named_translation (query : string) :
  contains "%(a)s" query = true ->
  contains "%(b)s" query = true ->
  contains "%s" query = false ->
  convert_query_and_query_args_for_data_api query
    (ArgsDict [("a", VInt 1); ("b", VStr "x")])
  = Returns
      (Some (substitute_all named_ab query,
             [ {| name := "a"; value := [("longValue", VInt 1)];
                  typeHint := None |};
               {| name := "b"; value := [("stringValue", VStr "x")];
                  typeHint := None |} ]))
  /\ contains "%(a)s" (substitute_all named_ab query) = false
  /\ contains "%(b)s" (substitute_all named_ab query) = false.
Proof.
  intros Ha Hb Hs. split; [|split].
  - unfold convert_query_and_query_args_for_data_api.
    rewrite Hs, (named_marker_found query Ha).
    unfold __convert_query_and_dict_query_args.
    cbn [items and_then dict_loop].
    rewrite <- (sequential_is_simultaneous (String.length query) query)
      by apply le_n.
    reflexivity.
  - apply (no_named_marker_left "%(a)s" (or_introl eq_refl)
             (String.length query)), le_n.
  - apply (no_named_marker_left "%(b)s" (or_intror eq_refl)
             (String.length query)), le_n.
Qed.

Lemma named_translation_witness :
  convert_query_and_query_args_for_data_api
    "SELECT %(a)s, %(b)s WHERE x = %(a)s"
    (ArgsDict [("a", VInt 1); ("b", VStr "x")])
  = Returns
      (Some ("SELECT :a, :b WHERE x = :a",
             [ {| name := "a"; value := [("longValue", VInt 1)];
                  typeHint := None |};
               {| name := "b"; value := [("stringValue", VStr "x")];
                  typeHint := None |} ])).
Proof.
  apply (named_translation "SELECT %(a)s, %(b)s WHERE x = %(a)s");
    reflexivity.
Defined.

(** * Further properties of the code *)

Local Open Scope list_scope.

(** ** The encoder *)

(** Decoding what the encoder built gives the argument back: the value of
    the parameter, read as a cell of a row, decodes to the argument itself,
    [None] included, and to the string rendering for a timestamp. *)
Theorem encoded_value_decodes_back (arg_name : string) (v : pyval)
    (p : EncodedParameter) :
  __map_argument_pair_to_data_api_arg arg_name v = Returns p ->
  row_values [value p]
  = [match v with
     | VDatetime rendered => VStr rendered
     | _ => v
     end].
Proof.
  destruct v; cbn; intro H; try discriminate H; injection H as <-;
    reflexivity.
Qed.

Lemma encoded_value_decodes_back_witness :
  row_values [[("isNull", VBool true)]] = [VNone]
  /\ row_values [[("doubleValue", VFloat 0)]] = [VFloat 0].
Proof.
  split.
  - apply (encoded_value_decodes_back "parameter_0" VNone
             {| name := "parameter_0"; value := [("isNull", VBool true)];
                typeHint := None |}).
    reflexivity.
  - apply (encoded_value_decodes_back "x" (VFloat 0)
             {| name := "x"; value := [("doubleValue", VFloat 0)];
                typeHint := None |}).
    reflexivity.
Defined.

(** Every parameter the encoder returns keeps the name it was given, has
    exactly one tag, one of the five of the table, and carries the type hint
    [TIMESTAMP] exactly when the argument is a timestamp; no other hint is
    ever set. *)
Theorem encoded_parameter_shape (arg_name : string) (v : pyval)
    (p : EncodedParameter) :
  __map_argument_pair_to_data_api_arg arg_name v = Returns p ->
  name p = arg_name
  /\ (exists tag stored, value p = [(tag, stored)] /\ In tag data_api_tags)
  /\ (typeHint p = Some "TIMESTAMP" <-> exists rendered, v = VDatetime rendered)
  /\ (typeHint p = None <-> forall rendered, v <> VDatetime rendered).
Proof.
  destruct v; cbn; intro H; try discriminate H; injection H as <-; cbn.
  all: split; [reflexivity|]; split;
    [eexists; eexists; split; [reflexivity | cbn; tauto]|].
  all: split; split; intro H.
  all: match goal with
       | |- _ = _ => try reflexivity
       | |- exists _, _ => try (eexists; reflexivity)
       | |- forall _, _ <> _ => try (intro; discriminate)
       end.
  all: match goal with
       | H : exists _, _ |- _ => destruct H as [? H]; discriminate H
       | H : forall _, _ <> _ |- _ => exfalso; eapply H; reflexivity
       | H : _ = _ |- _ => discriminate H
       end.
Qed.

Lemma encoded_parameter_shape_witness :
  typeHint {| name := "t"; value := [("stringValue", VStr "2021-05-07 13:43:00")];
              typeHint := Some "TIMESTAMP" |}
  = Some "TIMESTAMP"
  <-> exists rendered, VDatetime "2021-05-07 13:43:00" = VDatetime rendered.
Proof.
  apply (encoded_parameter_shape "t" (VDatetime "2021-05-07 13:43:00")
           {| name := "t";
              value := [("stringValue", VStr "2021-05-07 13:43:00")];
              typeHint := Some "TIMESTAMP" |}).
  reflexivity.
Defined.

(** ** Failures of the translation *)

Lemma list_or_tuple_loop_unsupported (args : list pyval) :
  Exists (fun v => scalar v = false) args ->
  forall (index : nat) (query : string) (acc : list EncodedParameter),
    list_or_tuple_loop index args query acc = Raises KeyError.
Proof.
  induction args as [|v args IH]; intros Hex index query acc.
  - inversion Hex.
  - cbn [list_or_tuple_loop]. destruct (scalar v) eqn:Hv.
    + destruct (encoder_total (parameter_name index) v Hv) as [p Hp].
      fold (parameter_name index). rewrite Hp. cbn [and_then].
      apply IH. inversion Hex as [? ? Hhd | ? ? Htl]; subst;
        [congruence | exact Htl].
    + destruct v; try discriminate Hv. reflexivity.
Qed.

Lemma dict_loop_unsupported (args : list (string * pyval)) :
  Exists (fun kv => scalar (snd kv) = false) args ->
  forall (query : string) (acc : list EncodedParameter),
    dict_loop args query acc = Raises KeyError.
Proof.
  induction args as [|[k v] args IH]; intros Hex query acc.
  - inversion Hex.
  - cbn [dict_loop]. destruct (scalar v) eqn:Hv.
    + destruct (encoder_total k v Hv) as [p Hp].
      rewrite Hp. cbn [and_then].
      apply IH. inversion Hex as [? ? Hhd | ? ? Htl]; subst;
        [cbn in Hhd; congruence | exact Htl].
    + destruct v; try discriminate Hv. reflexivity.
Qed.

Section Failures.

Variable es : string -> list EncodedParameter -> outcome response.
Variable bs : string -> list (list EncodedParameter) -> outcome response.

(** When the translation raises, [execute] raises the same exception
    before anything is sent, and the session is as before. *)
Lemma execute_translation_raises (query : string) (args : query_args)
    (e : exn) (self : session) :
  args_truthy args = true ->
  convert_query_and_query_args_for_data_api query args = Raises e ->
  execute es bs query args self = (Raises e, self).
Proof.
  intros Ha Hc. unfold execute, send, bind, lift.
  rewrite Ha, Hc. reflexivity.
Qed.

(** An argument of a type the table does not list, anywhere in the
    arguments, makes the translation raise [KeyError], in the positional mode
    for a sequence and, for an ASCII query text that selects the named mode,
    for a dict; [execute] then raises [KeyError] with the session unchanged
    and nothing sent. *)
Theorem unsupported_argument_raises_key_error (query : string)
    (self : session) :
  (forall args : list pyval,
     contains "%s" query = true ->
     Exists (fun v => scalar v = false) args ->
     convert_query_and_query_args_for_data_api query (ArgsSeq args)
     = Raises KeyError
     /\ execute es bs query (ArgsSeq args) self = (Raises KeyError, self))
  /\ (forall d : dict pyval,
        ascii_text query = true ->
        contains "%s" query = false ->
        search_named_marker query = true ->
        Exists (fun kv => scalar (snd kv) = false) d ->
        convert_query_and_query_args_for_data_api query (ArgsDict d)
        = Raises KeyError
        /\ execute es bs query (ArgsDict d) self = (Raises KeyError, self)).
Proof.
  split.
  - intros args Hq Hex.
    assert (Hc : convert_query_and_query_args_for_data_api query
                   (ArgsSeq args) = Raises KeyError).
    { unfold convert_query_and_query_args_for_data_api,
        __convert_query_and_list_or_tuple_query_args.
      rewrite Hq. cbn [iterate and_then].
      rewrite list_or_tuple_loop_unsupported by exact Hex. reflexivity. }
    split; [exact Hc|]. apply execute_translation_raises; [|exact Hc].
    destruct args; [inversion Hex | reflexivity].
  - intros d _ Hq Hn Hex.
    assert (Hc : convert_query_and_query_args_for_data_api query
                   (ArgsDict d) = Raises KeyError).
    { unfold convert_query_and_query_args_for_data_api,
        __convert_query_and_dict_query_args.
      rewrite Hq, Hn. cbn [items and_then].
      rewrite dict_loop_unsupported by exact Hex. reflexivity. }
    split; [exact Hc|]. apply execute_translation_raises; [|exact Hc].
    destruct d; [inversion Hex | reflexivity].
Qed.

(** An ASCII query text that selects the named mode (no ['%s'], a match of
    the named pattern) with a list or tuple of arguments makes the
    translation raise [AttributeError]: a sequence has no [items]; [execute]
    with a non-empty sequence raises it with the session unchanged. *)
Theorem named_mode_rejects_sequence (query : string) (args : list pyval)
    (self : session) :
  ascii_text query = true ->
  contains "%s" query = false ->
  search_named_marker query = true ->
  convert_query_and_query_args_for_data_api query (ArgsSeq args)
  = Raises AttributeError
  /\ (args <> [] ->
      execute es bs query (ArgsSeq args) self = (Raises AttributeError, self)).
Proof.
  intros _ Hq Hn.
  assert (Hc : convert_query_and_query_args_for_data_api query
                 (ArgsSeq args) = Raises AttributeError).
  { unfold convert_query_and_query_args_for_data_api. rewrite Hq, Hn.
    reflexivity. }
  split; [exact Hc|]. intro Hne.
  apply execute_translation_raises; [|exact Hc].
  destruct args; [congruence | reflexivity].
Qed.

(** The first loop of [executemany] over argument sets that translate. *)
Lemma translate_each_app (query : string) (pre : list query_args) :
  Forall (fun a => exists r,
            convert_query_and_query_args_for_data_api query a
            = Returns (Some r)) pre ->
  forall (rest : list query_args) (new_query : string)
         (acc : list (list EncodedParameter)),
    exists new_query' sets,
      length sets = length pre
      /\ (pre = [] -> new_query' = new_query)
      /\ translate_each query (pre ++ rest) new_query acc
         = translate_each query rest new_query' (acc ++ sets).
Proof.
  induction 1 as [|a pre [[q ps] Ha] _ IH]; intros rest new_query acc.
  - exists new_query, []. rewrite app_nil_r. repeat split.
  - destruct (IH rest q (acc ++ [ps])) as (q' & sets & Hlen & _ & Heq).
    exists q', (ps :: sets). split; [cbn; rewrite Hlen; reflexivity|].
    split; [discriminate|].
    cbn [app translate_each]. rewrite Ha. cbn [and_then unpack].
    rewrite Heq, <- app_assoc. reflexivity.
Qed.

(** A batch is all or nothing at the translation: when the argument sets
    before one translate and that one does not (the translation raises, or
    returns [None], which cannot be unpacked), [executemany] raises that
    exception, sends nothing and leaves the session as it was. *)
Theorem executemany_translation_failure (query : string)
    (pre post : list query_args) (a : query_args) (e : exn)
    (self : session) :
  Forall (fun a' => exists r,
            convert_query_and_query_args_for_data_api query a'
            = Returns (Some r)) pre ->
  and_then (convert_query_and_query_args_for_data_api query a) unpack
  = Raises e ->
  executemany es bs query (pre ++ a :: post) self = (Raises e, self).
Proof.
  intros Hpre Ha.
  destruct (translate_each_app query pre Hpre (a :: post) query [])
    as (q' & sets & _ & _ & Heq).
  unfold executemany, bind, lift. rewrite Heq.
  cbn [translate_each]. rewrite Ha. reflexivity.
Qed.

End Failures.

Lemma unsupported_argument_raises_key_error_witness :
  execute (answering update_response) (batch_answering update_response)
          "insert into t values (%s, %s)"
          (ArgsSeq [VInt 1; VBytes "blob"]) init
  = (Raises KeyError, init)
  /\ execute (answering update_response) (batch_answering update_response)
             "insert into t values (%(a)s)"
             (ArgsDict [("a", VBytes "blob")]) init
     = (Raises KeyError, init).
Proof.
  split.
  - apply (unsupported_argument_raises_key_error (answering update_response)
             (batch_answering update_response)
             "insert into t values (%s, %s)" init).
    + reflexivity.
    + apply Exists_cons_tl, Exists_cons_hd. reflexivity.
  - apply (unsupported_argument_raises_key_error (answering update_response)
             (batch_answering update_response)
             "insert into t values (%(a)s)" init).
    + reflexivity.
    + reflexivity.
    + reflexivity.
    + apply Exists_cons_hd. reflexivity.
Defined.

Lemma named_mode_rejects_sequence_witness :
  convert_query_and_query_args_for_data_api
    "select * from t where id = %(id)s" (ArgsSeq [VInt 3])
  = Raises AttributeError
  /\ execute (answering update_response) (batch_answering update_response)
             "select * from t where id = %(id)s" (ArgsSeq [VInt 3]) init
     = (Raises AttributeError, init).
Proof.
  destruct (named_mode_rejects_sequence (answering update_response)
              (batch_answering update_response)
              "select * from t where id = %(id)s" [VInt 3] init
              eq_refl eq_refl eq_refl) as [H1 H2].
  split; [exact H1 | apply H2; discriminate].
Defined.

Lemma executemany_translation_failure_witness :
  executemany (answering update_response) (batch_answering update_response)
              "insert into t values (%s)"
              ([ArgsSeq [VInt 1]] ++ ArgsSeq [VBytes "b"] :: [ArgsSeq [VInt 3]])
              init
  = (Raises KeyError, init).
Proof.
  apply (executemany_translation_failure (answering update_response)
           (batch_answering update_response) "insert into t values (%s)"
           [ArgsSeq [VInt 1]] [ArgsSeq [VInt 3]] (ArgsSeq [VBytes "b"])
           KeyError init).
  - constructor; [|constructor]. eexists. reflexivity.
  - reflexivity.
Defined.

(** ** Positional markers and arguments that do not match in number *)

Local Open Scope string_scope.

Lemma append_nil_r (s : string) : s ++ "" = s.
Proof.
  induction s as [|c s IH]; cbn; [reflexivity|]. rewrite IH. reflexivity.
Qed.

(** Without a marker, [replace('%s', new, 1)] changes nothing. *)
Lemma replace_without_marker (new u : string) :
  contains "%s" u = false -> str_replace "%s" new (Some 1) u = u.
Proof.
  unfold str_replace. induction u as [|c u IH]; intro Hu; [reflexivity|].
  cbn [contains] in Hu. apply orb_false_iff in Hu as [Hc Hu].
  cbn [replace_from may_replace andb]. rewrite Hc, (IH Hu). reflexivity.
Qed.

Lemma no_marker_at_join (c : ascii) (u s : string) :
  startswith "%s" (String c u) = false ->
  startswith "s" s = false ->
  startswith "%s" (String c (u ++ s)) = false.
Proof.
  destruct u as [|d u]; cbn [append].
  - intros _ Hs. rewrite startswith_cons, Hs. apply andb_false_r.
  - intros H _. exact H.
Qed.

(** A prefix without a marker does not add to the count of what follows,
    unless it would complete a marker with a leading [s]. *)
Lemma count_after_unmarked (u s : string) :
  contains "%s" u = false ->
  startswith "s" s = false ->
  str_count "%s" (u ++ s) = str_count "%s" s.
Proof.
  intros Hu Hs. induction u as [|c u IH]; [reflexivity|].
  cbn [contains] in Hu. apply orb_false_iff in Hu as [Hc Hu].
  cbn [append]. rewrite count_marker_skip by (apply no_marker_at_join; assumption).
  exact (IH Hu).
Qed.

Lemma with_markers_not_s (pieces : list string) :
  startswith "s" (with_markers pieces) = false.
Proof.
  destruct pieces; reflexivity.
Qed.

Lemma count_with_markers (pieces : list string) :
  Forall (fun p => contains "%s" p = false) pieces ->
  str_count "%s" (with_markers pieces) = length pieces.
Proof.
  induction 1 as [|p ps Hp _ IH]; [reflexivity|].
  cbn [with_markers length]. rewrite count_marker_here.
  rewrite count_after_unmarked by (exact Hp || apply with_markers_not_s).
  rewrite IH. reflexivity.
Qed.

Lemma Forall_front {A : Type} (P : A -> Prop) (n : nat) (l : list A) :
  Forall P l -> Forall P (firstn n l) /\ Forall P (skipn n l).
Proof.
  revert l. induction n as [|n IH]; intros l Hl; cbn.
  - split; [constructor | exact Hl].
  - destruct l as [|a l]; [split; constructor|].
    inversion Hl as [|? ? Ha Hl']; subst. destruct (IH l Hl') as [H1 H2].
    split; [constructor; assumption | exact H2].
Qed.

(** The loop of the positional translation for any number of arguments:
    the first markers, as many as there are arguments, become placeholders;
    later markers stay; arguments beyond the markers are encoded all the
    same. *)
Lemma list_or_tuple_loop_any (args : list pyval) :
  forall (pieces : list string) (index : nat) (u : string)
         (acc : list EncodedParameter),
    Forall (fun v => scalar v = true) args ->
    contains "%s" u = false ->
    Forall (fun p => contains "%s" p = false) pieces ->
    exists params,
      encoded_from index args params
      /\ list_or_tuple_loop index args (u ++ with_markers pieces) acc
         = Returns
             (u ++ with_parameters index (firstn (length args) pieces)
                ++ with_markers (skipn (length args) pieces),
              (acc ++ params)%list).
Proof.
  induction args as [|v args IH]; intros pieces index u acc Hv Hu Hps.
  - exists []. split; [constructor|]. cbn. rewrite app_nil_r. reflexivity.
  - inversion Hv as [|? ? Hv1 Hv2]; subst.
    destruct (encoder_total (parameter_name index) v Hv1) as (e & He).
    destruct pieces as [|p ps].
    + destruct (IH [] (S index) u (acc ++ [e])%list Hv2 Hu Hps)
        as (params & Hparams & Hloop).
      exists (e :: params). split; [econstructor; eassumption|].
      cbn [list_or_tuple_loop]. fold (parameter_name index).
      rewrite He. cbn [and_then].
      cbn [with_markers] in Hloop |- *. rewrite append_nil_r in Hloop |- *.
      rewrite replace_without_marker by exact Hu.
      rewrite Hloop, firstn_nil, skipn_nil, <- app_assoc.
      cbn [length firstn skipn with_parameters with_markers append].
      reflexivity.
    + inversion Hps as [|? ? Hp1 Hp2]; subst.
      destruct (IH ps (S index) (u ++ (":" ++ parameter_name index) ++ p)
                   (acc ++ [e])%list Hv2
                   (no_marker_extend u p index Hu Hp1) Hp2)
        as (params & Hparams & Hloop).
      exists (e :: params). split; [econstructor; eassumption|].
      cbn [list_or_tuple_loop with_markers]. fold (parameter_name index).
      rewrite He. cbn [and_then].
      rewrite replace_first_marker by exact Hu.
      cbn [length firstn skipn with_parameters].
      rewrite !append_assoc in Hloop. rewrite <- !app_assoc in Hloop.
      rewrite !append_assoc. exact Hloop.
Qed.

(** The number of arguments is never checked against the number of
    markers. For every query with at least one marker ['%s'] and every
    sequence of scalar arguments, of any length, the translation succeeds:
    it returns one encoded parameter per argument, named [parameter_0],
    [parameter_1], ... in order; the first markers, as many as there are
    arguments, are replaced by their placeholders and the later ones stay in
    the query, so that the count of markers goes down by the number of
    arguments, to zero at least. *)
Theorem positional_counts_unchecked (query : string) (args : list pyval) :
  1 <= str_count "%s" query ->
  Forall (fun v => scalar v = true) args ->
  exists head pieces new_query params,
    query = head ++ with_markers pieces
    /\ contains "%s" head = false
    /\ Forall (fun p => contains "%s" p = false) pieces
    /\ length pieces = str_count "%s" query
    /\ convert_query_and_query_args_for_data_api query (ArgsSeq args)
       = Returns (Some (new_query, params))
    /\ new_query
       = head ++ with_parameters 0 (firstn (length args) pieces)
              ++ with_markers (skipn (length args) pieces)
    /\ str_count "%s" new_query = str_count "%s" query - length args
    /\ length params = length args
    /\ map name params = map parameter_name (seq 0 (length args))
    /\ encoded_from 0 args params.
Proof.
  intros Hk Hargs.
  destruct (cut_at_markers (String.length query) query (le_n _))
    as (head & pieces & Hq & Hh & Hp & Hc).
  destruct (list_or_tuple_loop_any args pieces 0 head [] Hargs Hh Hp)
    as (params & Henc & Hloop).
  destruct (encoded_from_names 0 args params Henc) as [Hlen Hnames].
  destruct (Forall_front _ (length args) pieces Hp) as [Hfront Hback].
  exists head, pieces,
    (head ++ with_parameters 0 (firstn (length args) pieces)
          ++ with_markers (skipn (length args) pieces)),
    params.
  repeat split; try assumption.
  - unfold convert_query_and_query_args_for_data_api.
    assert (Hin : contains "%s" query = true).
    { destruct pieces as [|p ps]; [cbn in Hc; lia|].
      rewrite Hq. cbn [with_markers]. apply contains_middle. }
    rewrite Hin.
    unfold __convert_query_and_list_or_tuple_query_args.
    cbn [iterate and_then]. rewrite Hq, Hloop. reflexivity.
  - rewrite <- append_assoc.
    rewrite count_after_unmarked.
    + rewrite count_with_markers by exact Hback.
      rewrite length_skipn, Hc. reflexivity.
    + apply no_marker_with_parameters; assumption.
    + apply with_markers_not_s.
Qed.

Lemma positional_counts_unchecked_witness :
  exists head pieces new_query params,
    "a = %s and b = %s" = head ++ with_markers pieces
    /\ contains "%s" head = false
    /\ Forall (fun p => contains "%s" p = false) pieces
    /\ length pieces = str_count "%s" "a = %s and b = %s"
    /\ convert_query_and_query_args_for_data_api "a = %s and b = %s"
         (ArgsSeq [VInt 1])
       = Returns (Some (new_query, params))
    /\ new_query
       = head ++ with_parameters 0 (firstn 1 pieces)
              ++ with_markers (skipn 1 pieces)
    /\ str_count "%s" new_query = str_count "%s" "a = %s and b = %s" - 1
    /\ length params = 1
    /\ map name params = map parameter_name (seq 0 1)
    /\ encoded_from 0 [VInt 1] params.
Proof.
  apply (positional_counts_unchecked "a = %s and b = %s" [VInt 1]).
  - cbn. lia.
  - repeat constructor.
Defined.

(** ** The named mode for any dictionary *)

(** Where the pattern does not occur, [replace] changes nothing. *)
Lemma replace_absent (old new s : string) :
  contains old s = false -> str_replace old new None s = s.
Proof.
  unfold str_replace. destruct old as [|a old]; [reflexivity|].
  induction s as [|c s IH]; intro Hs; [reflexivity|].
  cbn [contains] in Hs. apply orb_false_iff in Hs as [Hc Hs].
  cbn [replace_from may_replace andb]. rewrite Hc, (IH Hs). reflexivity.
Qed.

Lemma named_replaced_absent (d : dict pyval) (query : string) :
  Forall (fun kv => contains (named_marker (fst kv)) query = false) d ->
  named_replaced d query = query.
Proof.
  unfold named_replaced. induction 1 as [|kv d Hkv _ IH]; [reflexivity|].
  cbn [fold_left]. rewrite replace_absent by exact Hkv. exact IH.
Qed.

(** The loop of the named translation: one replacement and one encoded
    parameter per entry, in the order of the dictionary. *)
Lemma dict_loop_spec (d : list (string * pyval)) :
  Forall (fun kv => scalar (snd kv) = true) d ->
  forall (query : string) (acc : list EncodedParameter),
    exists params,
      Forall2 (fun kv p =>
                 __map_argument_pair_to_data_api_arg (fst kv) (snd kv)
                 = Returns p) d params
      /\ dict_loop d query acc
         = Returns (named_replaced d query, (acc ++ params)%list).
Proof.
  induction 1 as [|[k v] d Hv _ IH]; intros query acc.
  - exists []. split; [constructor|]. cbn. rewrite app_nil_r. reflexivity.
  - cbn [snd] in Hv. destruct (encoder_total k v Hv) as [p Hp].
    destruct (IH (str_replace (named_marker k) (":" ++ k) None query)
                 (acc ++ [p])%list) as (params & Hall & Hloop).
    exists (p :: params). split; [constructor; assumption|].
    cbn [dict_loop]. rewrite Hp. cbn [and_then].
    unfold named_marker in Hloop. rewrite Hloop, <- app_assoc. reflexivity.
Qed.

Lemma replace_from_drop (old new : string) (count : option nat)
    (p r : string) :
  replace_from old new count (String.length p) (p ++ r)
  = replace_from old new count 0 r.
Proof.
  induction p as [|c p IH]; [reflexivity|].
  cbn [String.length append replace_from]. exact IH.
Qed.

(** At an occurrence, [replace] writes the replacement and goes on after
    the occurrence. *)
Lemma replace_at_match (a : ascii) (old new r : string) :
  replace_from (String a old) new None 0 (String a old ++ r)
  = new ++ replace_from (String a old) new None 0 r.
Proof.
  cbn [append replace_from may_replace andb used_one String.length Nat.pred].
  assert (H : startswith (String a old) (String a (old ++ r)) = true).
  { apply startswith_app. exists r. reflexivity. }
  rewrite H, replace_from_drop. reflexivity.
Qed.

Lemma avoids_app (c : ascii) (a b : string) :
  avoids c (a ++ b) = avoids c a && avoids c b.
Proof.
  induction a as [|x a IH]; [reflexivity|].
  cbn [append avoids]. rewrite IH, andb_assoc. reflexivity.
Qed.

(** A text without a percent sign, put in front, brings no occurrence of a
    pattern that starts with one. *)
Lemma contains_after_clean (p new x : string) :
  avoids "%" new = true ->
  contains (String "%" p) (new ++ x) = contains (String "%" p) x.
Proof.
  intro Hn. induction new as [|c new IH]; [reflexivity|].
  cbn [avoids] in Hn. apply andb_true_iff in Hn as [Hc Hn].
  cbn [append contains]. rewrite startswith_cons, (IH Hn).
  apply negb_true_iff in Hc. rewrite Ascii.eqb_sym, Hc. reflexivity.
Qed.

Lemma length_append (a b : string) :
  String.length (a ++ b) = String.length a + String.length b.
Proof.
  induction a as [|c a IH]; cbn; [reflexivity|]. rewrite IH. reflexivity.
Qed.

Lemma named_marker_gone (k : string) :
  avoids "%" k = true ->
  avoids ":" k = true ->
  forall n query,
    String.length query <= n ->
    contains (named_marker k)
             (replace_from (named_marker k) (String ":" k) None 0 query)
    = false.
Proof.
  intros Hpct Hcol.
  change (named_marker k) with (String "%" (String "(" (k ++ ")s"))).
  set (p := String "(" (k ++ ")s")).
  assert (Hp : avoids ":" p = true).
  { unfold p. cbn [avoids]. rewrite avoids_app, Hcol. reflexivity. }
  induction n as [|n IH]; intros query Hlen.
  { destruct query; [reflexivity | cbn in Hlen; lia]. }
  destruct (startswith (String "%" p) query) eqn:E.
  - apply startswith_app in E as [r ->].
    rewrite replace_at_match, contains_after_clean.
    + apply IH. rewrite length_append in Hlen. cbn in Hlen. lia.
    + cbn [avoids]. rewrite Hpct. reflexivity.
  - destruct query as [|c r]; [reflexivity|].
    rewrite replace_skip by exact E. cbn [contains].
    rewrite IH by (cbn in Hlen; lia). rewrite orb_false_r.
    rewrite startswith_cons in E |- *.
    destruct (Ascii.eqb "%" c); [|reflexivity]. cbn [andb] in E |- *.
    destruct (startswith p (replace_from (String "%" p) (String ":" k)
                                         None 0 r)) eqn:E'; [|reflexivity].
    apply (replace_reflects_prefix _ _ _ p Hp) in E'. congruence.
Qed.

(** For a key without a percent sign and without a colon, the replacement
    of the named translation leaves no occurrence of the key's marker
    ['%(key)s'] in the query, and so does the translation of an ASCII query
    text that selects the named mode, for the dictionary with that one
    key. *)
Theorem named_marker_all_replaced (k : string) (v : pyval) (query : string) :
  avoids "%" k = true ->
  avoids ":" k = true ->
  contains (named_marker k)
           (str_replace (named_marker k) (":" ++ k) None query)
  = false
  /\ (ascii_text query = true ->
      contains "%s" query = false ->
      search_named_marker query = true ->
      scalar v = true ->
      exists new_query p,
        convert_query_and_query_args_for_data_api query (ArgsDict [(k, v)])
        = Returns (Some (new_query, [p]))
        /\ name p = k
        /\ contains (named_marker k) new_query = false).
Proof.
  intros Hpct Hcol.
  assert (H : contains (named_marker k)
                (str_replace (named_marker k) (":" ++ k) None query) = false).
  { exact (named_marker_gone k Hpct Hcol (String.length query) query
             (le_n _)). }
  split; [exact H|]. intros _ Hq Hn Hv.
  destruct (encoder_total k v Hv) as [p Hp].
  exists (str_replace (named_marker k) (":" ++ k) None query), p.
  split; [|split; [exact (encoder_name _ _ _ Hp) | exact H]].
  unfold convert_query_and_query_args_for_data_api,
    __convert_query_and_dict_query_args.
  rewrite Hq, Hn. cbn [items and_then dict_loop]. rewrite Hp. reflexivity.
Qed.

Lemma named_marker_all_replaced_witness :
  contains (named_marker "user_id")
           (str_replace (named_marker "user_id") (":" ++ "user_id") None
                        "where a = %(user_id)s or b = %(user_id)s")
  = false
  /\ exists new_query p,
       convert_query_and_query_args_for_data_api
         "where a = %(user_id)s or b = %(user_id)s"
         (ArgsDict [("user_id", VNone)])
       = Returns (Some (new_query, [p]))
       /\ name p = "user_id"
       /\ contains (named_marker "user_id") new_query = false.
Proof.
  destruct (named_marker_all_replaced "user_id" VNone
              "where a = %(user_id)s or b = %(user_id)s" eq_refl eq_refl)
    as [H1 H2].
  split; [exact H1|]. apply H2; reflexivity.
Defined.

(** The two conditions on the key are needed: with a key that contains the
    start of a marker, or an end of one followed by a colon, the replacement
    itself builds a new occurrence. *)
Example named_marker_rebuilt :
  contains (named_marker "%(")
           (str_replace (named_marker "%(") (":" ++ "%(") None
                        "%(%()s%()s") = true
  /\ contains (named_marker ")s:")
              (str_replace (named_marker ")s:") (":" ++ ")s:") None
                           "%()s%()s:)s") = true.
Proof.
  split; reflexivity.
Qed.

Lemma contains_in_suffix (m a b : string) :
  contains m b = true -> contains m (a ++ b) = true.
Proof.
  intro H. induction a as [|c a IH]; [exact H|].
  cbn [append contains]. rewrite IH. apply orb_true_r.
Qed.

(** The replacement for a key without a percent sign brings no occurrence
    of a marker that has no colon: what the output contains, the input
    contained. *)
Lemma replace_brings_no_marker (a : ascii) (old k2 tail : string) :
  avoids ":" tail = true ->
  avoids "%" k2 = true ->
  forall n query,
    String.length query <= n ->
    contains (String "%" tail)
             (replace_from (String a old) (String ":" k2) None 0 query)
    = true ->
    contains (String "%" tail) query = true.
Proof.
  intros Htail Hk2. induction n as [|n IH]; intros query Hlen H.
  { destruct query; [discriminate H | cbn in Hlen; lia]. }
  destruct (startswith (String a old) query) eqn:E.
  - apply startswith_app in E as [r ->].
    rewrite replace_at_match, contains_after_clean in H
      by (cbn [avoids]; rewrite Hk2; reflexivity).
    apply contains_in_suffix, (IH r); [|exact H].
    rewrite length_append in Hlen. cbn in Hlen. lia.
  - destruct query as [|c r]; [discriminate H|].
    rewrite replace_skip in H by exact E.
    cbn [contains] in H |- *. apply orb_true_iff in H as [H | H].
    + rewrite startswith_cons in H |- *.
      apply andb_true_iff in H as [Hc H]. rewrite Hc.
      rewrite (replace_reflects_prefix _ _ _ tail Htail r H). reflexivity.
    + rewrite (IH r) by (cbn in Hlen; lia || exact H). apply orb_true_r.
Qed.

Lemma named_replaced_keeps_absent (d : dict pyval) :
  Forall (fun kv => avoids "%" (fst kv) = true /\ avoids ":" (fst kv) = true)
         d ->
  forall (k query : string),
    avoids ":" k = true ->
    contains (named_marker k) query = false ->
    contains (named_marker k) (named_replaced d query) = false.
Proof.
  unfold named_replaced.
  induction 1 as [|[k2 v2] d [Hpct _] _ IH]; intros k query Hk Hq;
    [exact Hq|].
  cbn [fold_left fst]. apply IH; [exact Hk|].
  destruct (contains (named_marker k)
              (str_replace (named_marker k2) (":" ++ k2) None query)) eqn:E;
    [|reflexivity].
  rewrite <- Hq. symmetry.
  refine (replace_brings_no_marker "%" (String "(" (k2 ++ ")s")) k2
            (String "(" (k ++ ")s")) _ Hpct (String.length query) query
            (le_n _) E).
  cbn [avoids]. rewrite avoids_app, Hk. reflexivity.
Qed.

(** After the named loop over keys without a percent sign and without a
    colon, the marker of no key is left. *)
Lemma named_replaced_no_marker (d : dict pyval) :
  Forall (fun kv => avoids "%" (fst kv) = true /\ avoids ":" (fst kv) = true)
         d ->
  forall query,
    Forall (fun kv =>
              contains (named_marker (fst kv)) (named_replaced d query)
              = false) d.
Proof.
  induction 1 as [|[k v] d [Hpct Hcol] Hd IH]; intro query; constructor.
  - cbn [fst]. change (named_replaced ((k, v) :: d) query)
      with (named_replaced d
              (str_replace (named_marker k) (":" ++ k) None query)).
    apply (named_replaced_keeps_absent d Hd k _ Hcol).
    exact (named_marker_gone k Hpct Hcol (String.length query) query
             (le_n _)).
  - apply IH.
Qed.

(** For an ASCII query text that selects the named mode, every entry of
    the dictionary gives one parameter, named by its key and encoding its
    value, in the order of the dictionary, whether or not the marker of the
    key occurs in the query. The query that comes back is the query itself
    when the marker of no key occurs in it, and it holds the marker of no key
    when the keys have no percent sign and no colon. The empty dictionary
    gives the query and no parameter. *)
Theorem named_one_parameter_per_entry (query : string) (d : dict pyval) :
  ascii_text query = true ->
  contains "%s" query = false ->
  search_named_marker query = true ->
  Forall (fun kv => scalar (snd kv) = true) d ->
  exists new_query params,
    convert_query_and_query_args_for_data_api query (ArgsDict d)
    = Returns (Some (new_query, params))
    /\ map name params = map fst d
    /\ Forall2 (fun kv p =>
                  __map_argument_pair_to_data_api_arg (fst kv) (snd kv)
                  = Returns p) d params
    /\ (Forall (fun kv => contains (named_marker (fst kv)) query = false) d ->
        new_query = query)
    /\ (Forall (fun kv => avoids "%" (fst kv) = true
                          /\ avoids ":" (fst kv) = true) d ->
        Forall (fun kv => contains (named_marker (fst kv)) new_query = false)
               d).
Proof.
  intros _ Hq Hn Hd.
  destruct (dict_loop_spec d Hd query []) as (params & Hall & Hloop).
  exists (named_replaced d query), params. split; [|split; [|split; [|split]]].
  - unfold convert_query_and_query_args_for_data_api,
      __convert_query_and_dict_query_args.
    rewrite Hq, Hn. cbn [items and_then]. rewrite Hloop. reflexivity.
  - clear Hloop. induction Hall as [|kv p d params Hp _ IH];
      [reflexivity|].
    inversion Hd as [|? ? _ Hd']; subst.
    cbn [map]. rewrite (encoder_name _ _ _ Hp), (IH Hd'). reflexivity.
  - exact Hall.
  - apply named_replaced_absent.
  - intro Hclean. apply named_replaced_no_marker. exact Hclean.
Qed.

Lemma named_one_parameter_per_entry_witness :
  exists new_query params,
    convert_query_and_query_args_for_data_api
      "select %(a)s, %(b)s from t where x = %(a)s"
      (ArgsDict [("a", VInt 1); ("unused", VNone); ("b", VStr "x")])
    = Returns (Some (new_query, params))
    /\ map name params = ["a"; "unused"; "b"]
    /\ Forall (fun kv => contains (named_marker (fst kv)) new_query = false)
              [("a", VInt 1); ("unused", VNone); ("b", VStr "x")].
Proof.
  destruct (named_one_parameter_per_entry
              "select %(a)s, %(b)s from t where x = %(a)s"
              [("a", VInt 1); ("unused", VNone); ("b", VStr "x")]
              eq_refl eq_refl eq_refl)
    as (new_query & params & H1 & H2 & _ & _ & H5).
  - repeat constructor.
  - exists new_query, params. split; [exact H1|]. split; [exact H2|].
    apply H5. repeat constructor.
Defined.

(** ** The decoder on every response *)

Local Open Scope list_scope.

(** A result set without rows: with columns and an empty record list,
    [fetchone] returns [None] and [fetchall] the empty list; the session is
    as before. *)
Theorem fetch_empty_result_set (self : session) (r : response)
    (c : column) (cs : list column) :
  data_api_response self = Some r ->
  columnMetadata r = Some (c :: cs) ->
  records r = Some [] ->
  fetchone self = (Returns FNone, self)
  /\ fetchall self = (Returns (FRows []), self).
Proof.
  intros Hr Hc Hrec.
  unfold fetchone, fetchall, fetch.
  unfold data_api_response_to_pymysql_response, bind, get, item, ret,
    no_columns.
  rewrite Hr, Hc, Hrec. cbn.
  destruct self as [d n ids l]. cbn in Hr. rewrite Hr.
  split; reflexivity.
Qed.

Lemma fetch_empty_result_set_witness :
  fetchone (holding init (set_records ann_response []))
  = (Returns FNone, holding init (set_records ann_response []))
  /\ fetchall (holding init (set_records ann_response []))
     = (Returns (FRows []), holding init (set_records ann_response [])).
Proof.
  apply (fetch_empty_result_set (holding init (set_records ann_response []))
           (set_records ann_response []) {| label := "id" |}
           [{| label := "name" |}]); reflexivity.
Defined.

(** The decoder raises nothing but [KeyError], for a key the response does
    not have (the status of a response without columns, the column metadata,
    the records); in particular it never pops from an empty record list. When
    it raises, the response is as it was. *)
Theorem decoder_raises_only_key_error (fetch_mode : string) (r r' : response)
    (e : exn) :
  data_api_response_to_pymysql_response fetch_mode r = (Raises e, r') ->
  e = KeyError
  /\ r' = r
  /\ (no_columns r = true /\ HTTPStatusCode r = None
      \/ columnMetadata r = None
      \/ records r = None).
Proof.
  destruct r as [cm st recs n g u].
  unfold data_api_response_to_pymysql_response, bind, get, item, ret, raise,
    put, no_columns.
  cbn [columnMetadata HTTPStatusCode records].
  destruct cm as [[|c cs]|], st as [code|], recs as [[|row rows]|]; cbn;
    try destruct (Z.eqb code 200); cbn;
    destruct (String.eqb fetch_mode "one"),
             (String.eqb fetch_mode "all"); cbn;
    intro H; inversion H; subst; auto.
Qed.

Lemma decoder_raises_only_key_error_witness :
  KeyError = KeyError
  /\ truncated_response = truncated_response
  /\ (no_columns truncated_response = true
      /\ HTTPStatusCode truncated_response = None
      \/ columnMetadata truncated_response = None
      \/ records truncated_response = None).
Proof.
  apply (decoder_raises_only_key_error "all" truncated_response
           truncated_response KeyError).
  reflexivity.
Defined.

(** With a fetch mode other than ['one'] and ['all'] the decoder returns
    [None] or raises [KeyError]; it returns no row and leaves the response as
    it was. *)
Theorem decoder_unknown_mode (fetch_mode : string) (r : response) :
  String.eqb fetch_mode "one" = false ->
  String.eqb fetch_mode "all" = false ->
  (fst (data_api_response_to_pymysql_response fetch_mode r) = Returns FNone
   \/ fst (data_api_response_to_pymysql_response fetch_mode r)
      = Raises KeyError)
  /\ snd (data_api_response_to_pymysql_response fetch_mode r) = r.
Proof.
  intros H1 H2. destruct r as [cm st recs n g u].
  unfold data_api_response_to_pymysql_response, bind, get, item, ret, raise,
    put, no_columns.
  cbn [columnMetadata HTTPStatusCode records]. rewrite H1, H2.
  destruct cm as [[|c cs]|], st as [code|], recs as [[|row rows]|]; cbn;
    try destruct (Z.eqb code 200); cbn; auto.
Qed.

Lemma decoder_unknown_mode_witness :
  (fst (data_api_response_to_pymysql_response "many" ann_response)
   = Returns FNone
   \/ fst (data_api_response_to_pymysql_response "many" ann_response)
      = Raises KeyError)
  /\ snd (data_api_response_to_pymysql_response "many" ann_response)
     = ann_response.
Proof.
  apply (decoder_unknown_mode "many" ann_response); reflexivity.
Defined.

(** A fetch touches nothing of the session but the record list of the
    stored response: the counters and ids stay, the other keys of the
    response stay, and the record list stays or loses rows from its front. *)
Theorem fetch_only_consumes_records (fetch_mode : string) (self : session) :
  let self' := snd (fetch fetch_mode self) in
  number_of_affected_rows self' = number_of_affected_rows self
  /\ returning_ids self' = returning_ids self
  /\ lastrowid self' = lastrowid self
  /\ match data_api_response self with
     | None => data_api_response self' = None
     | Some r =>
         exists r',
           data_api_response self' = Some r'
           /\ columnMetadata r' = columnMetadata r
           /\ HTTPStatusCode r' = HTTPStatusCode r
           /\ numberOfRecordsUpdated r' = numberOfRecordsUpdated r
           /\ generatedFields r' = generatedFields r
           /\ updateResults r' = updateResults r
           /\ (r' = r
               \/ exists rows rows',
                    records r = Some rows
                    /\ records r' = Some rows'
                    /\ suffix_of rows' rows)
     end.
Proof.
  destruct self as [[r|] n ids l]; cbv zeta; unfold fetch;
    cbn [data_api_response]; [|cbn; auto].
  destruct r as [cm st recs m g u].
  unfold data_api_response_to_pymysql_response, bind, get, item, ret, raise,
    put, no_columns.
  cbn [columnMetadata HTTPStatusCode records].
  destruct cm as [[|c cs]|], st as [code|], recs as [[|row rows]|]; cbn;
    try destruct (Z.eqb code 200); cbn;
    destruct (String.eqb fetch_mode "one"),
             (String.eqb fetch_mode "all"); cbn.
  all: repeat split; eexists; repeat split; try (left; reflexivity).
  all: right; eexists; eexists; repeat split.
  all: try (exists [row]; reflexivity).
  all: try (exists (row :: rows); cbn; rewrite app_nil_r; reflexivity).
Qed.

(** ** The decoded row *)

Lemma dict_set_fresh {V : Type} (d : dict V) (k : string) (v : V) :
  ~ In k (map fst d) -> dict_set d k v = d ++ [(k, v)].
Proof.
  induction d as [|[k0 v0] d IH]; cbn; intro H; [reflexivity|].
  destruct (String.eqb k0 k) eqn:E.
  - apply String.eqb_eq in E. exfalso. apply H. left. exact E.
  - rewrite IH; [reflexivity|]. intro Hin. apply H. right. exact Hin.
Qed.

Lemma fold_dict_set_distinct {V : Type} (pairs : list (string * V)) :
  forall d : dict V,
    NoDup (map fst (d ++ pairs)) ->
    fold_left (fun d kv => dict_set d (fst kv) (snd kv)) pairs d
    = d ++ pairs.
Proof.
  induction pairs as [|[k v] pairs IH]; intros d Hd; cbn [fold_left].
  - rewrite app_nil_r. reflexivity.
  - cbn [fst snd]. rewrite dict_set_fresh.
    + rewrite IH; rewrite <- app_assoc; [reflexivity | exact Hd].
    + rewrite map_app in Hd. cbn in Hd.
      apply NoDup_remove_2 in Hd. intro Hin. apply Hd.
      apply in_or_app. left. exact Hin.
Qed.

Lemma combine_keys_distinct {B : Type} (labels : list string) :
  NoDup labels ->
  forall vs : list B, NoDup (map fst (combine labels vs)).
Proof.
  induction 1 as [|a l Ha _ IH]; intros [|v vs]; cbn; try constructor.
  - intro Hin. apply Ha. exact (combine_keys _ _ _ Hin).
  - apply IH.
Qed.

(** The values of a row whose cells have one tag each: the value stored
    under the tag, and [None] under the tag [isNull]. *)
Lemma row_values_of_cells (cells : list (string * pyval)) :
  row_values (map (fun cell => [cell]) cells)
  = map (fun cell =>
           if String.eqb (fst cell) "isNull" then VNone else snd cell)
        cells.
Proof.
  induction cells as [|[tag v] cells IH]; [reflexivity|].
  cbn [map]. change (row_values ([(tag, v)] :: map (fun cell => [cell]) cells))
    with (row_values [[(tag, v)]]
          ++ row_values (map (fun cell => [cell]) cells)).
  rewrite IH. cbn [row_values flat_map map app fst snd].
  destruct (String.eqb tag "isNull"); reflexivity.
Qed.

(** With distinct column labels, the decoded row of a row whose cells
    [{tag: value}] have one tag each pairs the labels, in column order, with
    the values of the cells, [None] for a cell tagged [isNull] and the stored
    value for every other cell; columns without a cell and cells without a
    column are left out. *)
Theorem decoded_row_distinct_labels (labels : list string)
    (cells : list (string * pyval)) :
  NoDup labels ->
  formatted_row labels (map (fun cell => [cell]) cells)
  = combine labels
      (map (fun cell =>
              if String.eqb (fst cell) "isNull" then VNone else snd cell)
           cells).
Proof.
  intros Hl. unfold formatted_row, dict_of_pairs.
  rewrite fold_dict_set_distinct.
  - rewrite row_values_of_cells. reflexivity.
  - cbn [app]. apply combine_keys_distinct. exact Hl.
Qed.

Lemma decoded_row_distinct_labels_witness :
  formatted_row ["id"; "name"; "age"]
                [[("longValue", VInt 1)]; [("isNull", VBool true)]]
  = [("id", VInt 1); ("name", VNone)].
Proof.
  exact (decoded_row_distinct_labels ["id"; "name"; "age"]
           [("longValue", VInt 1); ("isNull", VBool true)]
           ltac:(repeat constructor; cbn; intuition discriminate)).
Defined.

(** When several columns have the same label, the decoded row holds the
    value of the last of them: for a label that does not come again after
    position [length before], the row maps it to the value at that
    position. *)
Theorem decoded_row_last_label_wins (before after : list string)
    (lbl : string) (r : row) :
  ~ In lbl after ->
  length before < length (row_values r) ->
  dict_get (formatted_row (before ++ lbl :: after) r) lbl
  = nth_error (row_values r) (length before).
Proof.
  intros Hnot Hlen. unfold formatted_row, dict_of_pairs.
  rewrite dict_of_pairs_get.
  destruct (nth_error (row_values r) (length before)) as [x|] eqn:Hx.
  2: { apply nth_error_None in Hx. lia. }
  destruct (nth_error_split _ _ Hx) as (vs1 & vs2 & Hvs & Hvs1).
  rewrite Hvs, combine_app_same_length by (symmetry; exact Hvs1).
  cbn [combine]. rewrite rev_app_distr. cbn [rev]. rewrite <- !app_assoc.
  rewrite dict_get_app, dict_get_absent.
  - cbn. rewrite String.eqb_refl. reflexivity.
  - rewrite map_rev, <- in_rev. intro Hin. apply Hnot.
    exact (combine_keys _ _ _ Hin).
Qed.

Lemma decoded_row_last_label_wins_witness :
  dict_get (formatted_row (["id"] ++ "id" :: ["name"])
                          [[("longValue", VInt 1)]; [("longValue", VInt 2)];
                           [("stringValue", VStr "Ann")]])
           "id"
  = Some (VInt 2).
Proof.
  apply (decoded_row_last_label_wins ["id"] ["name"] "id"
           [[("longValue", VInt 1)]; [("longValue", VInt 2)];
            [("stringValue", VStr "Ann")]]).
  - cbn. intuition discriminate.
  - cbn. lia.
Defined.

(** ** Reading a result set row by row *)

Lemma fetchone_times_from (self : session) (r : response) (c : column)
    (cs : list column) :
  columnMetadata r = Some (c :: cs) ->
  forall (rows : list row) (extra : nat),
    fetchone_times (length rows + extra) (holding self (set_records r rows))
    = (Returns (map (fun x => FRow (formatted_row (map label (c :: cs)) x))
                    rows
                ++ repeat FNone extra),
       holding self (set_records r [])).
Proof.
  intro Hc.
  assert (Hone : forall rows,
    fetchone (holding self (set_records r rows))
    = (Returns (match rows with
                | [] => FNone
                | x :: _ => FRow (formatted_row (map label (c :: cs)) x)
                end),
       holding self (set_records r (tl rows)))).
  { intro rows. unfold fetchone, fetch.
    unfold data_api_response_to_pymysql_response, bind, get, item, ret, put,
      no_columns.
    cbn [holding set_data_api_response snd data_api_response set_records
         columnMetadata records].
    rewrite Hc. destruct rows; reflexivity. }
  induction rows as [|x rows IH]; intro extra.
  - induction extra as [|extra IHe]; [reflexivity|].
    cbn [length Nat.add fetchone_times] in IHe |- *. unfold bind at 1.
    rewrite Hone. cbn [tl]. unfold bind at 1. rewrite IHe. reflexivity.
  - cbn [length Nat.add fetchone_times]. unfold bind at 1.
    rewrite Hone. cbn [tl]. unfold bind at 1. rewrite IH. reflexivity.
Qed.

(** Reading with [fetchone] until the result set is used up: on a stored
    response with columns and [n] records, [n] calls return the rows in their
    original order, each once, every further call returns [None], and the
    record list of the stored response is empty afterwards. *)
Theorem fetchone_reads_each_row_once (self : session) (r : response)
    (c : column) (cs : list column) (rows : list row) (extra : nat) :
  data_api_response self = Some r ->
  columnMetadata r = Some (c :: cs) ->
  records r = Some rows ->
  fetchone_times (length rows + extra) self
  = (Returns (map (fun x => FRow (formatted_row (map label (c :: cs)) x))
                  rows
              ++ repeat FNone extra),
     holding self (set_records r [])).
Proof.
  intros Hr Hc Hrec.
  rewrite <- (fetchone_times_from self r c cs Hc rows extra).
  f_equal. destruct self as [d n ids l], r as [cm st recs m g u].
  cbn in *. subst. reflexivity.
Qed.

Lemma fetchone_reads_each_row_once_witness :
  fetchone_times 3 (holding init ann_response)
  = (Returns [FRow [("id", VInt 1); ("name", VStr "Ann")]; FNone; FNone],
     holding init (set_records ann_response [])).
Proof.
  apply (fetchone_reads_each_row_once (holding init ann_response)
           ann_response {| label := "id" |} [{| label := "name" |}]
           [[[("longValue", VInt 1)]; [("stringValue", VStr "Ann")]]] 2);
    reflexivity.
Defined.

(** ** The cursor methods on every outcome *)

Section Cursor.

Variable es : string -> list EncodedParameter -> outcome response.
Variable bs : string -> list (list EncodedParameter) -> outcome response.

Lemma send_returns (query : string) (args : query_args) (self : session)
    (r : response) :
  fst (send es bs query args self) = Returns r ->
  send es bs query args self = (Returns r, self).
Proof.
  intro H. pose proof (send_frame es bs query args self) as Hs.
  destruct (send es bs query args self) as [o s]. cbn in *. subst.
  reflexivity.
Qed.

(** A call of [execute] that returns: the response of the service is
    stored and its [numberOfRecordsUpdated] is the result and the recorded
    count. *)
Lemma execute_returns (query : string) (args : query_args)
    (self self1 : session) (n : Z) :
  execute es bs query args self = (Returns n, self1) ->
  exists r,
    send es bs query args self = (Returns r, self)
    /\ data_api_response self1 = Some r
    /\ numberOfRecordsUpdated r = Some n
    /\ number_of_affected_rows self1 = Some n.
Proof.
  unfold execute, bind. intro H.
  pose proof (send_frame es bs query args self) as Hs.
  destruct (send es bs query args self) as [[r|e] s0]; cbn in Hs; subst s0;
    [|discriminate H].
  exists r. split; [reflexivity|].
  cbn [set_data_api_response] in H.
  set (s1 := {| data_api_response := Some r;
                number_of_affected_rows := number_of_affected_rows self;
                returning_ids := returning_ids self;
                lastrowid := lastrowid self |}) in H.
  pose proof (record_lastrowid_cases query r s1) as Hl. cbv zeta in Hl.
  destruct (record_lastrowid query r s1) as [[[]|e] s2]; [|discriminate H].
  cbn [snd] in Hl. destruct Hl as (Hd & _ & _).
  unfold record_affected_rows, bind, item, ret, raise,
    set_number_of_affected_rows in H.
  destruct (numberOfRecordsUpdated r) as [m|]; [|discriminate H].
  injection H as <- <-. cbn. rewrite Hd. auto.
Qed.

(** The count [execute] returns is the [numberOfRecordsUpdated] of the
    response of the service, and [affected_rows] gives the same count
    afterwards. *)
Theorem execute_and_affected_rows_agree (query : string) (args : query_args)
    (self self1 : session) (n : Z) :
  execute es bs query args self = (Returns n, self1) ->
  affected_rows self1 = (Returns (Some n), self1)
  /\ exists r,
       fst (send es bs query args self) = Returns r
       /\ data_api_response self1 = Some r
       /\ numberOfRecordsUpdated r = Some n.
Proof.
  intro H. destruct (execute_returns _ _ _ _ _ H) as (r & Hs & Hd & Hn & Ha).
  split.
  - unfold affected_rows. rewrite Ha. reflexivity.
  - exists r. rewrite Hs. auto.
Qed.

(** For a query that contains INSERT in any letter case, [execute] records
    the [longValue] of the first generated field of the response as
    [lastrowid], whatever else the response holds. *)
Theorem execute_captures_insert_id (query : string) (args : query_args)
    (self : session) (r : response) (first : field) (rest : list field)
    (id : pyval) :
  fst (send es bs query args self) = Returns r ->
  contains_ci "INSERT" query = true ->
  generatedFields r = Some (first :: rest) ->
  dict_get first "longValue" = Some id ->
  lastrowid (snd (execute es bs query args self)) = Some id.
Proof.
  intros Hs Hi Hg Hid. rewrite <- insert_test in Hi.
  unfold execute, bind. rewrite (send_returns _ _ _ _ Hs).
  cbn [set_data_api_response].
  unfold record_lastrowid, bind, item, ret, set_lastrowid.
  rewrite Hi, Hg, Hid.
  match goal with
  | |- lastrowid (snd (record_affected_rows r ?s)) = _ =>
      destruct (record_affected_rows_frame r s) as (_ & _ & Hf)
  end.
  rewrite Hf. reflexivity.
Qed.

(** For an ASCII query text, a call of [execute] that raises either raised
    in the translation or in the request, with the session untouched, or
    raised [KeyError] after the response was stored, for a key the response
    does not have ([numberOfRecordsUpdated], or for a query that contains
    INSERT in any letter case [generatedFields] or the [longValue] of the
    first generated field): then the stored response is the new one while the
    affected-row count is still the old one. *)
Theorem execute_failure_modes (query : string) (args : query_args)
    (self : session) (e : exn) :
  ascii_text query = true ->
  let self' := snd (execute es bs query args self) in
  fst (execute es bs query args self) = Raises e ->
  (fst (send es bs query args self) = Raises e /\ self' = self)
  \/ exists r,
       fst (send es bs query args self) = Returns r
       /\ e = KeyError
       /\ data_api_response self' = Some r
       /\ number_of_affected_rows self' = number_of_affected_rows self
       /\ returning_ids self' = returning_ids self
       /\ (numberOfRecordsUpdated r = None
           \/ contains_ci "INSERT" query = true
              /\ (generatedFields r = None
                  \/ exists first rest,
                       generatedFields r = Some (first :: rest)
                       /\ dict_get first "longValue" = None)).
Proof.
  intros _. cbv zeta. rewrite <- insert_test. unfold execute, bind.
  pose proof (send_frame es bs query args self) as Hs.
  destruct (send es bs query args self) as [[r|e0] s0]; cbn in Hs; subst s0.
  2: { cbn. intro H. injection H as ->. left. split; reflexivity. }
  intro H. right. exists r. split; [reflexivity|].
  cbn [set_data_api_response] in H |- *.
  unfold record_lastrowid, record_affected_rows, bind, item, ret, raise,
    set_lastrowid, set_number_of_affected_rows in H |- *.
  destruct (contains "INSERT" (upper query));
    [destruct (generatedFields r) as [[|first rest]|];
       [|destruct (dict_get first "longValue") eqn:Hid|]|];
    destruct (numberOfRecordsUpdated r); cbn in H |- *;
    try discriminate H; injection H as <-.
  all: repeat split; auto.
  all: right; split; [reflexivity|]; auto.
  all: right; exists first, rest; auto.
Qed.

End Cursor.

Lemma execute_and_affected_rows_agree_witness :
  affected_rows
    (snd (execute (answering insert_response)
                  (batch_answering insert_response)
                  "insert into t values (1)" ArgsNone init))
  = (Returns (Some 1%Z),
     snd (execute (answering insert_response)
                  (batch_answering insert_response)
                  "insert into t values (1)" ArgsNone init)).
Proof.
  apply (execute_and_affected_rows_agree (answering insert_response)
           (batch_answering insert_response) "insert into t values (1)"
           ArgsNone init _ 1%Z).
  reflexivity.
Defined.

Lemma execute_captures_insert_id_witness :
  lastrowid (snd (execute (answering insert_response)
                          (batch_answering insert_response)
                          "Insert Into t values (%s)" (ArgsSeq [VInt 7])
                          init))
  = Some (VInt 42).
Proof.
  apply (execute_captures_insert_id (answering insert_response)
           (batch_answering insert_response) "Insert Into t values (%s)"
           (ArgsSeq [VInt 7]) init insert_response
           [("longValue", VInt 42)] []); reflexivity.
Defined.

Lemma execute_failure_modes_witness :
  (fst (send (answering (batch_response [])) (batch_answering update_response)
             "update t set a = 1" ArgsNone init)
   = Raises KeyError
   /\ snd (execute (answering (batch_response []))
                   (batch_answering update_response)
                   "update t set a = 1" ArgsNone init)
      = init)
  \/ exists r,
       fst (send (answering (batch_response []))
                 (batch_answering update_response)
                 "update t set a = 1" ArgsNone init)
       = Returns r
       /\ KeyError = KeyError
       /\ data_api_response
            (snd (execute (answering (batch_response []))
                          (batch_answering update_response)
                          "update t set a = 1" ArgsNone init))
          = Some r
       /\ number_of_affected_rows
            (snd (execute (answering (batch_response []))
                          (batch_answering update_response)
                          "update t set a = 1" ArgsNone init))
          = number_of_affected_rows init
       /\ returning_ids
            (snd (execute (answering (batch_response []))
                          (batch_answering update_response)
                          "update t set a = 1" ArgsNone init))
          = returning_ids init
       /\ (numberOfRecordsUpdated r = None
           \/ contains_ci "INSERT" "update t set a = 1" = true
              /\ (generatedFields r = None
                  \/ exists first rest,
                       generatedFields r = Some (first :: rest)
                       /\ dict_get first "longValue" = None)).
Proof.
  apply (execute_failure_modes (answering (batch_response []))
           (batch_answering update_response) "update t set a = 1" ArgsNone
           init KeyError).
  - reflexivity.
  - reflexivity.
Defined.

(** ** Batches and the adaptor for SELECT queries *)

Section Batch.

Variable es : string -> list EncodedParameter -> outcome response.
Variable bs : string -> list (list EncodedParameter) -> outcome response.

(** The loop over the per-row results, whether it finishes or raises for a
    result without [generatedFields]: it only appends to the ids, and only
    truthy values, at most one per result. *)
Lemma collect_returning_ids_frame (results : list update_result) :
  forall (self self' : session) (o : outcome unit),
    collect_returning_ids results self = (o, self') ->
    data_api_response self' = data_api_response self
    /\ number_of_affected_rows self' = number_of_affected_rows self
    /\ lastrowid self' = lastrowid self
    /\ exists new,
         returning_ids self' = returning_ids self ++ new
         /\ Forall (fun id => truthy id = true) new
         /\ length new <= length results.
Proof.
  induction results as [|result results IH]; intros self self' o H.
  - cbn in H. injection H as <- <-. repeat split.
    exists []. rewrite app_nil_r. repeat split; [constructor | cbn; lia].
  - assert (Hstep : forall (s1 : session) (added : list pyval),
      collect_returning_ids results s1 = (o, self') ->
      data_api_response s1 = data_api_response self ->
      number_of_affected_rows s1 = number_of_affected_rows self ->
      lastrowid s1 = lastrowid self ->
      returning_ids s1 = returning_ids self ++ added ->
      Forall (fun id => truthy id = true) added ->
      length added <= 1 ->
      data_api_response self' = data_api_response self
      /\ number_of_affected_rows self' = number_of_affected_rows self
      /\ lastrowid self' = lastrowid self
      /\ exists new,
           returning_ids self' = returning_ids self ++ new
           /\ Forall (fun id => truthy id = true) new
           /\ length new <= length (result :: results)).
    { intros s1 added Hc H1 H2 H3 H4 H5 H6.
      destruct (IH _ _ _ Hc) as (I1 & I2 & I3 & new & I4 & I5 & I6).
      rewrite I1, I2, I3, H1, H2, H3. repeat split.
      exists (added ++ new). rewrite I4, H4, app_assoc. repeat split.
      - apply Forall_app. split; assumption.
      - rewrite length_app. cbn [length] in *. lia. }
    cbn [collect_returning_ids] in H. unfold bind, item, ret, raise in H.
    destruct (result_generatedFields result) as [[|first rest]|].
    + exact (Hstep self [] H eq_refl eq_refl eq_refl
               (eq_sym (app_nil_r _)) (Forall_nil _) (Nat.le_0_l _)).
    + destruct (dict_get first "longValue") as [id|];
        [destruct (truthy id) eqn:Ht|].
      * exact (Hstep (with_more_ids self [id]) [id] H
                 eq_refl eq_refl eq_refl eq_refl
                 (Forall_cons _ Ht (Forall_nil _)) (le_n _)).
      * exact (Hstep self [] H eq_refl eq_refl eq_refl
                 (eq_sym (app_nil_r _)) (Forall_nil _) (Nat.le_0_l _)).
      * exact (Hstep self [] H eq_refl eq_refl eq_refl
                 (eq_sym (app_nil_r _)) (Forall_nil _) (Nat.le_0_l _)).
    + injection H as <- <-. repeat split.
      exists []. rewrite app_nil_r. repeat split; [constructor | cbn; lia].
Qed.

(** The accumulated generated ids are never reset and never hold a falsy
    value of a batch: whatever [executemany] does (return, or raise in the
    translation, in the request or on a response that lacks a key), the ids
    afterwards are the ids before followed by truthy values only, and
    [lastrowid] is as before; [execute] leaves the ids exactly as they
    were. *)
Theorem returning_ids_append_only (query : string) (self : session) :
  (forall query_args_list,
     let self' := snd (executemany es bs query query_args_list self) in
     lastrowid self' = lastrowid self
     /\ exists new,
          returning_ids self' = returning_ids self ++ new
          /\ Forall (fun id => truthy id = true) new)
  /\ (forall args,
        returning_ids (snd (execute es bs query args self))
        = returning_ids self).
Proof.
  split.
  - intro l. cbv zeta. unfold executemany, bind, lift.
    assert (Hsame : lastrowid self = lastrowid self
                    /\ exists new,
                         returning_ids self = returning_ids self ++ new
                         /\ Forall (fun id => truthy id = true) new).
    { split; [reflexivity|]. exists []. rewrite app_nil_r.
      split; [reflexivity | constructor]. }
    destruct (translate_each query l query []) as [[nq sets]|e];
      [|exact Hsame].
    unfold execute_query, lift.
    destruct (bs nq sets) as [r|e]; [|exact Hsame].
    cbn [set_data_api_response]. unfold item.
    destruct (updateResults r) as [results|]; [|cbn; exact Hsame].
    unfold ret.
    match goal with
    | |- context [collect_returning_ids results ?s] =>
        destruct (collect_returning_ids results s) as [o s2] eqn:E;
        destruct (collect_returning_ids_frame results s s2 o E)
          as (_ & _ & Hl & new & Hnew & Ht & _)
    end.
    cbn in Hl, Hnew. destruct o as [[]|e]; cbn; rewrite Hl, Hnew;
      (split; [reflexivity|]); exists new; split;
      (reflexivity || exact Ht).
  - intro args.
    pose proof (execute_cases es bs query args self) as H. cbv zeta in H.
    destruct H as [-> | (r & _ & _ & H & _)]; [reflexivity | exact H].
Qed.

(** [query_adaptor] is a function of the session: it leaves every
    attribute, the stored response included, as it was. *)
Theorem query_adaptor_leaves_session (query : string) (args : query_args)
    (fetch_mode : string) (self : session) :
  snd (query_adaptor es bs query args fetch_mode self) = self.
Proof.
  unfold query_adaptor, bind, lift.
  pose proof (send_frame es bs query args self) as Hs.
  destruct (send es bs query args self) as [[r|e] s0]; cbn in Hs |- *;
    exact Hs.
Qed.

(** [query_adaptor] returns what [fetchone] or [fetchall] return after an
    [execute] of the same query that succeeded. *)
Theorem query_adaptor_is_execute_then_fetch (query : string)
    (args : query_args) (fetch_mode : string) (self self1 : session)
    (n : Z) :
  execute es bs query args self = (Returns n, self1) ->
  fst (query_adaptor es bs query args fetch_mode self)
  = fst (fetch fetch_mode self1).
Proof.
  intro H. destruct (execute_returns es bs _ _ _ _ _ H)
    as (r & Hs & Hd & _ & _).
  unfold query_adaptor, bind, lift, fetch. rewrite Hs, Hd.
  destruct (data_api_response_to_pymysql_response fetch_mode r).
  reflexivity.
Qed.

(** What the first loop of [executemany] returns: one parameter set per
    argument set, each the translation of its argument set, and the query of
    the last translation, or the query itself for an empty list. *)
Lemma translate_each_all (query : string) (l : list query_args) :
  forall (new_query new_query' : string)
         (acc sets' : list (list EncodedParameter)),
    translate_each query l new_query acc = Returns (new_query', sets') ->
    exists sets,
      sets' = acc ++ sets
      /\ Forall2 (fun a s => exists q,
                    convert_query_and_query_args_for_data_api query a
                    = Returns (Some (q, s))) l sets
      /\ (l = [] -> new_query' = new_query)
      /\ (forall front a, l = front ++ [a] ->
          exists s, convert_query_and_query_args_for_data_api query a
                    = Returns (Some (new_query', s))).
Proof.
  induction l as [|a l IH]; intros nq nq' acc sets' H.
  - injection H as <- <-. exists []. rewrite app_nil_r.
    repeat split; try constructor.
    intros [|? ?] ? Hl; discriminate Hl.
  - cbn [translate_each] in H.
    destruct (convert_query_and_query_args_for_data_api query a)
      as [[[q1 s1]|]|e] eqn:Ha; try discriminate H.
    cbn [and_then unpack] in H.
    destruct (IH _ _ _ _ H) as (sets & Hsets & Hall & Hnil & Hlast).
    exists (s1 :: sets). split; [rewrite Hsets, <- app_assoc; reflexivity|].
    split; [constructor; [exists q1; exact Ha | exact Hall]|].
    split; [discriminate|].
    intros front b Hl. destruct front as [|x front].
    + injection Hl as <- Hl. subst l. rewrite (Hnil eq_refl).
      exists s1. exact Ha.
    + injection Hl as _ Hl. exact (Hlast front b Hl).
Qed.

(** A batch sends one statement: the translation of the query for the last
    argument set (the query itself when there is none), with one parameter
    set per argument set, in order; what the service raises for it is raised
    by [executemany] with the session unchanged. *)
Theorem executemany_sends_last_translation (query : string)
    (l : list query_args) (new_query : string)
    (sets : list (list EncodedParameter)) (self : session) :
  translate_each query l query [] = Returns (new_query, sets) ->
  Forall2 (fun a s => exists q,
             convert_query_and_query_args_for_data_api query a
             = Returns (Some (q, s))) l sets
  /\ (l = [] -> new_query = query)
  /\ (forall front a, l = front ++ [a] ->
      exists s, convert_query_and_query_args_for_data_api query a
                = Returns (Some (new_query, s)))
  /\ (forall e, bs new_query sets = Raises e ->
      executemany es bs query l self = (Raises e, self)).
Proof.
  intro H.
  destruct (translate_each_all query l _ _ _ _ H)
    as (sets0 & Hsets & Hall & Hnil & Hlast).
  cbn [app] in Hsets. subst sets0.
  repeat split; try assumption.
  intros e He. unfold executemany, bind, lift, execute_query.
  rewrite H, He. reflexivity.
Qed.

End Batch.

Lemma query_adaptor_is_execute_then_fetch_witness :
  fst (query_adaptor (answering ann_response) (batch_answering ann_response)
                     "select id, name from t where id = %s"
                     (ArgsSeq [VInt 1]) "one" init)
  = fst (fetch "one"
           (snd (execute (answering ann_response)
                         (batch_answering ann_response)
                         "select id, name from t where id = %s"
                         (ArgsSeq [VInt 1]) init))).
Proof.
  apply (query_adaptor_is_execute_then_fetch (answering ann_response)
           (batch_answering ann_response)
           "select id, name from t where id = %s" (ArgsSeq [VInt 1]) "one"
           init _ 0%Z).
  reflexivity.
Defined.

Lemma executemany_sends_last_translation_witness :
  executemany (answering update_response)
              (fun _ _ => Raises BadRequestException)
              "insert into t values (%s, %s)"
              [ArgsSeq [VInt 1; VInt 2]; ArgsSeq [VInt 3]] init
  = (Raises BadRequestException, init).
Proof.
  apply (executemany_sends_last_translation (answering update_response)
           (fun _ _ => Raises BadRequestException)
           "insert into t values (%s, %s)"
           [ArgsSeq [VInt 1; VInt 2]; ArgsSeq [VInt 3]]
           "insert into t values (:parameter_0, %s)"
           [[{| name := "parameter_0"; value := [("longValue", VInt 1)];
                typeHint := None |};
             {| name := "parameter_1"; value := [("longValue", VInt 2)];
                typeHint := None |}];
            [{| name := "parameter_0"; value := [("longValue", VInt 3)];
                typeHint := None |}]]
           init).
  - reflexivity.
  - reflexivity.
Defined.
